(** * EventSourcePolyfill: a model of the stream decoder and of the
      connection state machine of [src/EventSourcePolyfill.ts].

    JavaScript strings are sequences of UTF-16 code units; they are modelled
    as lists of [N].  The object state is a record; every method is a
    function from the state to the new state and the list of effects it
    had on its collaborators (event dispatch, transport, timer), in the
    order in which the method performs them.

    The collaborators stay outside: the transport appears as the snapshot
    of a handle that each notification carries, and the timer as the
    [TimerExpired] notification.  In the methods of the first part the
    listeners only observe the dispatched events, and a [close()] of the
    application arrives between two handlers, as [CloseCalled]; the module
    [WithListeners] has the same methods with listeners that can call
    [close()] while the event is dispatched. *)

From Stdlib Require Import List NArith ZArith Bool Lia String Ascii.
Import ListNotations.


(** ** JavaScript strings *)

Module JS.

Definition char := N.
Definition jsstring := list char.

(** A literal of the source, written as a Rocq string. *)
Definition lit (s : string) : jsstring :=
  map N_of_ascii (list_ascii_of_string s).

Definition LF : char := 10%N.
Definition CR : char := 13%N.
Definition NUL : char := 0%N.
Definition SPACE : char := 32%N.
Definition COLON : char := 58%N.

Definition eqb (a b : jsstring) : bool :=
  if list_eq_dec N.eq_dec a b then true else false.

(** [s === ''] *)
Definition isEmpty (s : jsstring) : bool :=
  match s with [] => true | _ :: _ => false end.

(** [s.indexOf(c)] for a one-character needle: the position of its first
    occurrence, or -1. *)
Fixpoint indexOf (s : jsstring) (c : char) : Z :=
  match s with
  | [] => (-1)%Z
  | x :: s' =>
      if N.eqb x c then 0%Z
      else let i := indexOf s' c in
           if (i =? -1)%Z then (-1)%Z else (i + 1)%Z
  end.

(** [s.substring(from)] and [s.substring(0, to)]; both clamp to the length
    of [s]. *)
Definition substringFrom (s : jsstring) (from : nat) : jsstring := skipn from s.
Definition substringTo (s : jsstring) (to : nat) : jsstring := firstn to s.

(** [s.slice(1)] *)
Definition slice1 (s : jsstring) : jsstring := skipn 1 s.

(** [s[s.length - 1]]; [None] stands for [undefined] (empty string). *)
Definition lastChar (s : jsstring) : option char :=
  match s with [] => None | _ => Some (last s NUL) end.

(** [s.slice(0, -1)] *)
Definition sliceDropLast (s : jsstring) : jsstring := removelast s.

(** [s.split('\n')]: never empty; the last element is what follows the last
    line feed (the whole string when there is none). *)
Fixpoint split (s : jsstring) : list jsstring :=
  match s with
  | [] => [[]]
  | c :: s' =>
      if N.eqb c LF then [] :: split s'
      else match split s' with
           | [] => [[c]]
           | l :: ls => (c :: l) :: ls
           end
  end.

(** ASCII lower-casing.  [String.prototype.toLowerCase] also maps characters
    outside ASCII, but the only comparison made on its result is with the
    ASCII literal ['text/event-stream'], which no such mapping produces. *)
Definition toLowerCase (s : jsstring) : jsstring :=
  map (fun c => if (65 <=? c)%N && (c <=? 90)%N then (c + 32)%N else c) s.

(** What [Array.prototype.join] does with a separator. *)
Fixpoint join (sep : jsstring) (parts : list jsstring) : jsstring :=
  match parts with
  | [] => []
  | [p] => p
  | p :: ps => p ++ sep ++ join sep ps
  end.

End JS.
Import JS.

(** ** Text normaliser (lines 13-15) *)

Definition continuation (b : N) : bool := ((128 <=? b) && (b <=? 191))%N.

Definition low6 (b : N) : N := N.land b 63.

(** Code units of a code point (a surrogate pair above the basic plane). *)
Definition codeUnits (v : N) : jsstring :=
  if (v <? 65536)%N then [v]
  else [ (55296 + N.shiftr (v - 65536) 10)%N ; (56320 + N.land (v - 65536) 1023)%N ].

(** [decodeURIComponent(escape(str))].  [escape] writes every code unit
    below 256 that is not a plain character as [%XX] and every other one as
    [%uXXXX]; [decodeURIComponent] reads each maximal run of [%XX] as UTF-8
    and throws [URIError] on an octet sequence that is not the UTF-8
    encoding of a code point, and on [%u].  [None] is that exception. *)
Fixpoint decodeUTF8 (str : jsstring) : option jsstring :=
  match str with
  | [] => Some []
  | b0 :: s1 =>
    if (b0 <? 128)%N then option_map (cons b0) (decodeUTF8 s1)
    else if (b0 <? 192)%N then None
    else if (b0 <? 224)%N then
      match s1 with
      | b1 :: s2 =>
        let v := N.lor (N.shiftl (N.land b0 31) 6) (low6 b1) in
        if continuation b1 && (128 <=? v)%N
        then option_map (app (codeUnits v)) (decodeUTF8 s2) else None
      | _ => None
      end
    else if (b0 <? 240)%N then
      match s1 with
      | b1 :: b2 :: s3 =>
        let v := N.lor (N.shiftl (N.land b0 15) 12)
                       (N.lor (N.shiftl (low6 b1) 6) (low6 b2)) in
        if continuation b1 && continuation b2 && (2048 <=? v)%N
           && negb ((55296 <=? v) && (v <=? 57343))%N
        then option_map (app (codeUnits v)) (decodeUTF8 s3) else None
      | _ => None
      end
    else if (b0 <? 248)%N then
      match s1 with
      | b1 :: b2 :: b3 :: s4 =>
        let v := N.lor (N.shiftl (N.land b0 7) 18)
                       (N.lor (N.shiftl (low6 b1) 12)
                              (N.lor (N.shiftl (low6 b2) 6) (low6 b3))) in
        if continuation b1 && continuation b2 && continuation b3
           && (65536 <=? v)%N && (v <=? 1114111)%N
        then option_map (app (codeUnits v)) (decodeUTF8 s4) else None
      | _ => None
      end
    else None
  end.

(** [str.replace(/\r\n|\r/g, '\n')] *)
Fixpoint normalizeToLF (str : jsstring) : jsstring :=
  match str with
  | [] => []
  | c :: s' =>
      if N.eqb c CR then
        LF :: normalizeToLF (match s' with
                             | c' :: s'' => if N.eqb c' LF then s'' else s'
                             | [] => s'
                             end)
      else c :: normalizeToLF s'
  end.

(** ** Data model (lines 1-35) *)

Module Fields.
Definition EVENT : jsstring := lit "event".
Definition DATA : jsstring := lit "data".
Definition ID : jsstring := lit "id".
Definition RETRY : jsstring := lit "retry".
End Fields.

Record MessagePayload := { field : jsstring; value : jsstring }.

(** The numbers the client stores and passes to the timer.  The only number
    ever written to [reconnectionTime] is one [Number.isInteger] accepted, so
    the integers are kept exactly and every other value of the Number type
    (fractions, NaN, the infinities) is one summand. *)
Inductive number :=
| Integer (n : Z)
| NonInteger.

Definition Number_isInteger (x : number) : bool :=
  match x with Integer _ => true | NonInteger => false end.

Inductive ReadyState := CONNECTING | OPEN | CLOSED.

Definition ReadyState_code (r : ReadyState) : Z :=
  match r with CONNECTING => 0 | OPEN => 1 | CLOSED => 2 end.

Definition ReadyState_eqb (a b : ReadyState) : bool :=
  (ReadyState_code a =? ReadyState_code b)%Z.

(** What a handler reads from the transport handle it was installed on: the
    handle's identity and a snapshot of its observable properties at the time
    of the notification.  [None] for a header is [null]; [None] for
    [responseText] is a read that throws. *)
Record XMLHttpRequest := {
  xhr_handle : nat;
  xhr_readyState : Z;
  xhr_status : Z;
  xhr_ContentType : option jsstring;
  xhr_Location : option jsstring;
  xhr_responseText : option jsstring;
  xhr_responseURL : jsstring
}.

Inductive Event :=
| PlainEvent (type : jsstring)
| MessageEvent (type : jsstring) (data : jsstring) (origin : jsstring)
               (lastEventId : jsstring).

Record Request := {
  req_method : jsstring;
  req_url : jsstring;
  req_withCredentials : bool;
  req_headers : list (jsstring * jsstring)
}.

(** Calls made on the collaborators. *)
Inductive effect :=
| dispatchEvent (e : Event)
| xhrSend (handle : nat) (r : Request)
| xhrAbort (handle : nat)
| setTimeout (delay : number).

(** The fields of the object.  [xhr] holds the identity of the current
    transport handle; handles are numbered in the order of their creation. *)
Record EventSourcePolyfill := {
  url : jsstring;
  withCredentials : bool;
  lastEventId : jsstring;
  reconnectionTime : number;
  responseTextCursor : nat;
  eventTypeBuffer : jsstring;
  idBuffer : jsstring;
  dataBuffer : jsstring;
  canReconnect : bool;
  readyState : ReadyState;
  xhr : option nat
}.

Definition set_lastEventId v (t : EventSourcePolyfill) :=
  {| url := url t; withCredentials := withCredentials t; lastEventId := v;
     reconnectionTime := reconnectionTime t;
     responseTextCursor := responseTextCursor t;
     eventTypeBuffer := eventTypeBuffer t; idBuffer := idBuffer t;
     dataBuffer := dataBuffer t; canReconnect := canReconnect t;
     readyState := readyState t; xhr := xhr t |}.

Definition set_reconnectionTime v (t : EventSourcePolyfill) :=
  {| url := url t; withCredentials := withCredentials t;
     lastEventId := lastEventId t; reconnectionTime := v;
     responseTextCursor := responseTextCursor t;
     eventTypeBuffer := eventTypeBuffer t; idBuffer := idBuffer t;
     dataBuffer := dataBuffer t; canReconnect := canReconnect t;
     readyState := readyState t; xhr := xhr t |}.

Definition set_responseTextCursor v (t : EventSourcePolyfill) :=
  {| url := url t; withCredentials := withCredentials t;
     lastEventId := lastEventId t; reconnectionTime := reconnectionTime t;
     responseTextCursor := v;
     eventTypeBuffer := eventTypeBuffer t; idBuffer := idBuffer t;
     dataBuffer := dataBuffer t; canReconnect := canReconnect t;
     readyState := readyState t; xhr := xhr t |}.

Definition set_eventTypeBuffer v (t : EventSourcePolyfill) :=
  {| url := url t; withCredentials := withCredentials t;
     lastEventId := lastEventId t; reconnectionTime := reconnectionTime t;
     responseTextCursor := responseTextCursor t;
     eventTypeBuffer := v; idBuffer := idBuffer t;
     dataBuffer := dataBuffer t; canReconnect := canReconnect t;
     readyState := readyState t; xhr := xhr t |}.

Definition set_idBuffer v (t : EventSourcePolyfill) :=
  {| url := url t; withCredentials := withCredentials t;
     lastEventId := lastEventId t; reconnectionTime := reconnectionTime t;
     responseTextCursor := responseTextCursor t;
     eventTypeBuffer := eventTypeBuffer t; idBuffer := v;
     dataBuffer := dataBuffer t; canReconnect := canReconnect t;
     readyState := readyState t; xhr := xhr t |}.

Definition set_dataBuffer v (t : EventSourcePolyfill) :=
  {| url := url t; withCredentials := withCredentials t;
     lastEventId := lastEventId t; reconnectionTime := reconnectionTime t;
     responseTextCursor := responseTextCursor t;
     eventTypeBuffer := eventTypeBuffer t; idBuffer := idBuffer t;
     dataBuffer := v; canReconnect := canReconnect t;
     readyState := readyState t; xhr := xhr t |}.

Definition set_canReconnect v (t : EventSourcePolyfill) :=
  {| url := url t; withCredentials := withCredentials t;
     lastEventId := lastEventId t; reconnectionTime := reconnectionTime t;
     responseTextCursor := responseTextCursor t;
     eventTypeBuffer := eventTypeBuffer t; idBuffer := idBuffer t;
     dataBuffer := dataBuffer t; canReconnect := v;
     readyState := readyState t; xhr := xhr t |}.

Definition set_readyState v (t : EventSourcePolyfill) :=
  {| url := url t; withCredentials := withCredentials t;
     lastEventId := lastEventId t; reconnectionTime := reconnectionTime t;
     responseTextCursor := responseTextCursor t;
     eventTypeBuffer := eventTypeBuffer t; idBuffer := idBuffer t;
     dataBuffer := dataBuffer t; canReconnect := canReconnect t;
     readyState := v; xhr := xhr t |}.

Definition set_xhr v (t : EventSourcePolyfill) :=
  {| url := url t; withCredentials := withCredentials t;
     lastEventId := lastEventId t; reconnectionTime := reconnectionTime t;
     responseTextCursor := responseTextCursor t;
     eventTypeBuffer := eventTypeBuffer t; idBuffer := idBuffer t;
     dataBuffer := dataBuffer t; canReconnect := canReconnect t;
     readyState := readyState t; xhr := v |}.

(** ** Methods as state transformers with a log of effects *)

Definition method := EventSourcePolyfill -> EventSourcePolyfill * list effect.

Definition skip : method := fun this => (this, []).

Definition assign (f : EventSourcePolyfill -> EventSourcePolyfill) : method :=
  fun this => (f this, []).

Definition call (e : effect) : method := fun this => (this, [e]).

Definition seq (f g : method) : method :=
  fun this =>
    let (this1, e1) := f this in
    let (this2, e2) := g this1 in
    (this2, e1 ++ e2).

Declare Scope method_scope.
Delimit Scope method_scope with method.
Bind Scope method_scope with method.
Notation "f ;; g" := (seq f g) (at level 61, right associativity) : method_scope.
Local Open Scope method_scope.

(** The events a method dispatched, among its effects. *)
Definition dispatched (es : list effect) : list Event :=
  flat_map (fun e => match e with dispatchEvent ev => [ev] | _ => [] end) es.

(** The requests a method sent. *)
Definition sent (es : list effect) : list Request :=
  flat_map (fun e => match e with xhrSend _ r => [r] | _ => [] end) es.

(** The timers a method set. *)
Definition timers (es : list effect) : list number :=
  flat_map (fun e => match e with setTimeout d => [d] | _ => [] end) es.

(** ** The class (lines 17-208) *)

(** Field parser: the body of the [else] branch of the loop of
    [interpretStream] (lines 157-167) up to the call of [processField]:
    [None] for a comment line, otherwise the payload that is passed on. *)
Definition parseLine (line : jsstring) : option MessagePayload :=
  let firstColonIdx := indexOf line COLON in
  if (firstColonIdx =? 0)%Z then None
  else if negb (firstColonIdx =? -1)%Z then
    let field := substringTo line (Z.to_nat firstColonIdx) in
    let untrimmedVal := substringFrom line (Z.to_nat (firstColonIdx + 1)) in
    let value := if (indexOf untrimmedVal SPACE =? 0)%Z
                 then slice1 untrimmedVal else untrimmedVal in
    Some {| field := field; value := value |}
  else Some {| field := line; value := [] |}.

Section Methods.

(** [+value]: the string-to-number conversion of the language, up to what
    [Number.isInteger] tells apart.  The methods take it as a parameter;
    [StringToNumber] below is the conversion the language defines. *)
Variable ToNumber : jsstring -> number.

Definition announceConnection : method :=
  assign (set_readyState OPEN) ;;
  call (dispatchEvent (PlainEvent (lit "open"))) ;;
  assign (set_responseTextCursor 0).

(** [connect(url = this.url)].  Creating the handle, opening it, setting
    its headers and sending it is one [xhrSend]; the handler installed on
    the handle is [onreadystatechange] below. *)
Definition connect (target : option jsstring) : method :=
  fun this =>
    let url := match target with Some u => u | None => url this end in
    let handle := match xhr this with Some h => S h | None => O end in
    let this := set_xhr (Some handle) (set_readyState CONNECTING this) in
    let headers :=
      [(lit "Accept", lit "text/event-stream");
       (lit "Cache-Control", lit "no-cache")]
      ++ (if isEmpty (lastEventId this) then []
          else [(lit "Last-Event-ID", lastEventId this)]) in
    (this, [xhrSend handle {| req_method := lit "GET"; req_url := url;
                              req_withCredentials := withCredentials this;
                              req_headers := headers |}]).

Definition dispatchMessageEvent (origin : jsstring) : method :=
  fun this =>
    let this := set_lastEventId (idBuffer this) this in
    if isEmpty (dataBuffer this) then (set_eventTypeBuffer [] this, [])
    else
      let this :=
        match lastChar (dataBuffer this) with
        | Some c => if N.eqb c LF
                    then set_dataBuffer (sliceDropLast (dataBuffer this)) this
                    else this
        | None => this
        end in
      let eventType := if isEmpty (eventTypeBuffer this) then lit "message"
                       else eventTypeBuffer this in
      let event := MessageEvent eventType (dataBuffer this) origin
                                (lastEventId this) in
      (set_dataBuffer [] (set_eventTypeBuffer [] this), [dispatchEvent event]).

(** [xhr.abort()] on a handle that is still loading notifies the handler
    once more, with [xhr.readyState] 4; [readyState] is [CLOSED] by then, so
    that nested notification returns at line 71 and is left out. *)
Definition failConnection (x : XMLHttpRequest) (isSilent : bool) : method :=
  assign (set_readyState CLOSED) ;;
  (if isSilent then skip else call (dispatchEvent (PlainEvent (lit "error")))) ;;
  assign (set_canReconnect false) ;;
  call (xhrAbort (xhr_handle x)).

Definition handleConnection (x : XMLHttpRequest) : method :=
  fun this =>
    if ReadyState_eqb (readyState this) CONNECTING then
      match xhr_ContentType x with
      | Some contentType =>
          if negb (isEmpty contentType)
             && eqb (toLowerCase contentType) (lit "text/event-stream")
          then announceConnection this
          else failConnection x false this
      | None => failConnection x false this
      end
    else (this, []).

Definition processField (payload : MessagePayload) : method :=
  if eqb (field payload) Fields.EVENT then
    assign (set_eventTypeBuffer (value payload))
  else if eqb (field payload) Fields.DATA then
    assign (fun this => set_dataBuffer (dataBuffer this ++ value payload ++ [LF]) this)
  else if eqb (field payload) Fields.ID then
    if (indexOf (value payload) NUL =? -1)%Z
    then assign (set_idBuffer (value payload)) else skip
  else if eqb (field payload) Fields.RETRY then
    let interval := ToNumber (value payload) in
    if Number_isInteger interval
    then assign (set_reconnectionTime interval) else skip
  else skip.

(** One turn of the loop of [interpretStream] (lines 153-168). *)
Definition interpretLine (origin line : jsstring) : method :=
  if isEmpty line then dispatchMessageEvent origin
  else match parseLine line with
       | None => skip
       | Some payload => processField payload
       end.

Fixpoint interpretLines (origin : jsstring) (lines : list jsstring) : method :=
  match lines with
  | [] => skip
  | line :: rest => interpretLine origin line ;; interpretLines origin rest
  end.

(** A [URIError] of [decodeUTF8] is not caught: it leaves the method, and
    the handler that called it, after the cursor has moved. *)
Definition interpretStream (x : XMLHttpRequest) : method :=
  fun this =>
    if negb (ReadyState_eqb (readyState this) OPEN) then (this, [])
    else
      match xhr_responseText x with
      | None => (this, [])
      | Some responseText =>
          let rawChunk := substringFrom responseText (responseTextCursor this) in
          let this := set_responseTextCursor (List.length responseText) this in
          match decodeUTF8 rawChunk with
          | None => (this, [])
          | Some decoded =>
              let chunk := normalizeToLF decoded in
              interpretLines (xhr_responseURL x) (split chunk) this
          end
      end.

(** The callback given to [setTimeout] is [timerCallback] below. *)
Definition reestablishConnection : method :=
  fun this =>
    if ReadyState_eqb (readyState this) CLOSED || negb (canReconnect this)
    then (this, [])
    else (assign (set_readyState CONNECTING) ;;
          call (dispatchEvent (PlainEvent (lit "error"))) ;;
          call (setTimeout (reconnectionTime this)))%method this.

Definition timerCallback : method :=
  fun this =>
    if negb (ReadyState_eqb (readyState this) CONNECTING) then (this, [])
    else connect None this.

(** The handler [connect] installs on the handle [x] (lines 70-96). *)
Definition onreadystatechange (x : XMLHttpRequest) : method :=
  fun this =>
    if (xhr_readyState x <=? 1)%Z || ReadyState_eqb (readyState this) CLOSED
    then (this, [])
    else if (xhr_readyState x =? 4)%Z then reestablishConnection this
    else if (xhr_status x =? 200)%Z then
      (handleConnection x ;; interpretStream x)%method this
    else if (xhr_status x =? 204)%Z then
      assign (set_canReconnect false) this
    else if (xhr_status x =? 301)%Z || (xhr_status x =? 307)%Z then
      let redirectUrl := xhr_Location x in
      (failConnection x true ;;
       match redirectUrl with
       | Some u => if isEmpty u then skip else connect (Some u)
       | None => skip
       end)%method this
    else failConnection x false this.

Definition close : method :=
  fun this =>
    let this := set_readyState CLOSED this in
    match xhr this with
    | Some h => (this, [xhrAbort h])
    | None => (this, [])
    end.

(** [new EventSourcePolyfill(url, config)]: the field initialisers, then
    [connect()].  [readyState] has no initialiser; [connect] assigns it
    before anything reads it. *)
Definition new (url : jsstring) (withCredentials : bool)
  : EventSourcePolyfill * list effect :=
  connect None
    {| url := url; withCredentials := withCredentials; lastEventId := [];
       reconnectionTime := Integer 2000; responseTextCursor := 0;
       eventTypeBuffer := []; idBuffer := []; dataBuffer := [];
       canReconnect := true; readyState := CONNECTING; xhr := None |}.

(** ** The object driven by its environment *)

(** What the event loop can deliver to the object: a notification of a
    transport handle, the expiry of a timer, or the application's call of
    [close()]. *)
Inductive notification :=
| ReadyStateChange (x : XMLHttpRequest)
| TimerExpired
| CloseCalled.

Definition react (n : notification) : method :=
  match n with
  | ReadyStateChange x => onreadystatechange x
  | TimerExpired => timerCallback
  | CloseCalled => close
  end.

Fixpoint run (ns : list notification) : method :=
  match ns with
  | [] => skip
  | n :: rest => react n ;; run rest
  end.

(** The transport delivers the response text in pieces: each progress
    notification of the handle [x] shows the text received so far. *)
Fixpoint feed (x : XMLHttpRequest) (received : jsstring)
         (chunks : list jsstring) : method :=
  match chunks with
  | [] => skip
  | c :: rest =>
      interpretStream
        {| xhr_handle := xhr_handle x; xhr_readyState := xhr_readyState x;
           xhr_status := xhr_status x; xhr_ContentType := xhr_ContentType x;
           xhr_Location := xhr_Location x;
           xhr_responseText := Some (received ++ c);
           xhr_responseURL := xhr_responseURL x |} ;;
      feed x (received ++ c) rest
  end.

End Methods.

(** ** The class with listeners that call back *)

(** [dispatchEvent] runs the listeners of the event before it returns, and
    a listener can call [close()].  The methods above leave the listeners
    out; here the methods that dispatch, and their callers, are written
    with the listeners inside.  [listener e memory] is what the listeners of
    [e] do when the application remembers [memory]: what it remembers
    afterwards, and whether one of them called [close()].  The abort in that
    [close()] notifies the handler of the handle, which returns at line 71
    because the object is [CLOSED]. *)
Module WithListeners.

Section Methods.

Variable ToNumber : jsstring -> number.
Variable Memory : Type.
Variable listener : Event -> Memory -> Memory * bool.

Definition handler :=
  EventSourcePolyfill * Memory -> (EventSourcePolyfill * Memory) * list effect.

(** A method that dispatches nothing. *)
Definition lift (m : method) : handler :=
  fun s => let (this, es) := m (fst s) in ((this, snd s), es).

Definition andThen (f g : handler) : handler :=
  fun s =>
    let (s1, e1) := f s in
    let (s2, e2) := g s1 in
    (s2, e1 ++ e2).

Notation "f ;;; g" := (andThen f g) (at level 61, right associativity).

(** [this.dispatchEvent(e)] *)
Definition dispatch (e : Event) : handler :=
  fun s =>
    let (memory, closes) := listener e (snd s) in
    if closes
    then let (this, es) := close (fst s) in
         ((this, memory), dispatchEvent e :: es)
    else ((fst s, memory), [dispatchEvent e]).

Definition announceConnection : handler :=
  lift (assign (set_readyState OPEN)) ;;;
  dispatch (PlainEvent (lit "open")) ;;;
  lift (assign (set_responseTextCursor 0)).

Definition dispatchMessageEvent (origin : jsstring) : handler :=
  fun s =>
    let this := set_lastEventId (idBuffer (fst s)) (fst s) in
    if isEmpty (dataBuffer this) then ((set_eventTypeBuffer [] this, snd s), [])
    else
      let this :=
        match lastChar (dataBuffer this) with
        | Some c => if N.eqb c LF
                    then set_dataBuffer (sliceDropLast (dataBuffer this)) this
                    else this
        | None => this
        end in
      let eventType := if isEmpty (eventTypeBuffer this) then lit "message"
                       else eventTypeBuffer this in
      let event := MessageEvent eventType (dataBuffer this) origin
                                (lastEventId this) in
      dispatch event (set_dataBuffer [] (set_eventTypeBuffer [] this), snd s).

Definition failConnection (x : XMLHttpRequest) (isSilent : bool) : handler :=
  lift (assign (set_readyState CLOSED)) ;;;
  (if isSilent then lift skip else dispatch (PlainEvent (lit "error"))) ;;;
  lift (assign (set_canReconnect false)) ;;;
  lift (call (xhrAbort (xhr_handle x))).

Definition handleConnection (x : XMLHttpRequest) : handler :=
  fun s =>
    if ReadyState_eqb (readyState (fst s)) CONNECTING then
      match xhr_ContentType x with
      | Some contentType =>
          if negb (isEmpty contentType)
             && eqb (toLowerCase contentType) (lit "text/event-stream")
          then announceConnection s
          else failConnection x false s
      | None => failConnection x false s
      end
    else (s, []).

Definition interpretLine (origin line : jsstring) : handler :=
  if isEmpty line then dispatchMessageEvent origin
  else match parseLine line with
       | None => lift skip
       | Some payload => lift (processField ToNumber payload)
       end.

Fixpoint interpretLines (origin : jsstring) (lines : list jsstring) : handler :=
  match lines with
  | [] => lift skip
  | line :: rest => interpretLine origin line ;;; interpretLines origin rest
  end.

Definition interpretStream (x : XMLHttpRequest) : handler :=
  fun s =>
    if negb (ReadyState_eqb (readyState (fst s)) OPEN) then (s, [])
    else
      match xhr_responseText x with
      | None => (s, [])
      | Some responseText =>
          let rawChunk :=
            substringFrom responseText (responseTextCursor (fst s)) in
          let s := (set_responseTextCursor (List.length responseText) (fst s),
                    snd s) in
          match decodeUTF8 rawChunk with
          | None => (s, [])
          | Some decoded =>
              let chunk := normalizeToLF decoded in
              interpretLines (xhr_responseURL x) (split chunk) s
          end
      end.

Definition reestablishConnection : handler :=
  fun s =>
    if ReadyState_eqb (readyState (fst s)) CLOSED || negb (canReconnect (fst s))
    then (s, [])
    else (lift (assign (set_readyState CONNECTING)) ;;;
          dispatch (PlainEvent (lit "error")) ;;;
          lift (fun this => (this, [setTimeout (reconnectionTime this)]))) s.

Definition onreadystatechange (x : XMLHttpRequest) : handler :=
  fun s =>
    if (xhr_readyState x <=? 1)%Z || ReadyState_eqb (readyState (fst s)) CLOSED
    then (s, [])
    else if (xhr_readyState x =? 4)%Z then reestablishConnection s
    else if (xhr_status x =? 200)%Z then
      (handleConnection x ;;; interpretStream x) s
    else if (xhr_status x =? 204)%Z then
      lift (assign (set_canReconnect false)) s
    else if (xhr_status x =? 301)%Z || (xhr_status x =? 307)%Z then
      let redirectUrl := xhr_Location x in
      (failConnection x true ;;;
       match redirectUrl with
       | Some u => if isEmpty u then lift skip else lift (connect (Some u))
       | None => lift skip
       end) s
    else failConnection x false s.

Definition react (n : notification) : handler :=
  match n with
  | ReadyStateChange x => onreadystatechange x
  | TimerExpired => lift timerCallback
  | CloseCalled => lift close
  end.

Fixpoint run (ns : list notification) : handler :=
  match ns with
  | [] => lift skip
  | n :: rest => react n ;;; run rest
  end.

End Methods.

End WithListeners.

(** ** The numeric conversion of the language (line 187) *)

(** [+value] is StringToNumber of the language definition: the string
    without the white space and line terminators around it is read by the
    grammar of StringNumericLiteral, and its mathematical value is rounded
    to the nearest double, ties to even (the language lets an engine be
    less exact past the twentieth significant digit; engines round
    exactly).  The value is then classed as [Number.isInteger] sees it;
    minus zero is the integer 0. *)

Definition isStrWhiteSpace (c : char) : bool :=
  existsb (N.eqb c)
          [9; 10; 11; 12; 13; 32; 160; 5760; 8232; 8233; 8239; 8287; 12288;
           65279]%N
  || ((8192 <=? c) && (c <=? 8202))%N.

Fixpoint trimStart (s : jsstring) : jsstring :=
  match s with
  | c :: s' => if isStrWhiteSpace c then trimStart s' else s
  | [] => []
  end.

Definition trimString (s : jsstring) : jsstring :=
  rev (trimStart (rev (trimStart s))).

Definition isDecimalDigit (c : char) : bool := ((48 <=? c) && (c <=? 57))%N.

(** The value of a digit, decimal or hexadecimal in either case. *)
Definition digitValue (c : char) : option Z :=
  if isDecimalDigit c then Some (Z.of_N c - 48)%Z
  else if ((97 <=? c) && (c <=? 102))%N then Some (Z.of_N c - 87)%Z
  else if ((65 <=? c) && (c <=? 70))%N then Some (Z.of_N c - 55)%Z
  else None.

(** The whole of [s] read as digits of the radix, after [acc]. *)
Fixpoint digitsIn (radix acc : Z) (s : jsstring) : option Z :=
  match s with
  | [] => Some acc
  | c :: s' =>
      match digitValue c with
      | Some d => if (d <? radix)%Z then digitsIn radix (acc * radix + d) s'
                  else None
      | None => None
      end
  end.

Definition someDigitsIn (radix : Z) (s : jsstring) : option Z :=
  if isEmpty s then None else digitsIn radix 0 s.

(** The longest prefix of decimal digits, and what follows it. *)
Fixpoint spanDigits (s : jsstring) : jsstring * jsstring :=
  match s with
  | c :: s' =>
      if isDecimalDigit c
      then let (d, r) := spanDigits s' in (c :: d, r)
      else ([], s)
  | [] => ([], [])
  end.

(** ExponentPart, or nothing: [e] or [E], an optional sign, digits. *)
Definition exponentPart (s : jsstring) : option Z :=
  match s with
  | [] => Some 0%Z
  | c :: s1 =>
      if N.eqb c 101 || N.eqb c 69 then
        match s1 with
        | sign :: s2 =>
            if N.eqb sign 43 then someDigitsIn 10 s2
            else if N.eqb sign 45 then option_map Z.opp (someDigitsIn 10 s2)
            else someDigitsIn 10 s1
        | [] => None
        end
      else None
  end.

(** The mathematical value of a literal: infinite, or [m] times ten to
    the [e]. *)
Inductive literalValue :=
| Infinity
| Finite (m e : Z).

(** StrUnsignedDecimalLiteral: [Infinity], or digits with an optional
    fraction and exponent, or a fraction that starts with the point. *)
Definition strUnsignedDecimalLiteral (s : jsstring) : option literalValue :=
  if eqb s (lit "Infinity") then Some Infinity
  else
    let (ip, r1) := spanDigits s in
    let (fp, r3) := match r1 with
                    | c :: r2 => if N.eqb c 46 then spanDigits r2 else ([], r1)
                    | [] => ([], r1)
                    end in
    if isEmpty ip && isEmpty fp then None
    else match digitsIn 10 0 (ip ++ fp), exponentPart r3 with
         | Some m, Some e => Some (Finite m (e - Z.of_nat (List.length fp)))
         | _, _ => None
         end.

(** StrDecimalLiteral: an optional sign ([true] for minus). *)
Definition strDecimalLiteral (s : jsstring) : option (bool * literalValue) :=
  match s with
  | c :: s' =>
      if N.eqb c 43 then option_map (pair false) (strUnsignedDecimalLiteral s')
      else if N.eqb c 45 then option_map (pair true) (strUnsignedDecimalLiteral s')
      else option_map (pair false) (strUnsignedDecimalLiteral s)
  | [] => None
  end.

(** NonDecimalIntegerLiteral: [0x], [0o] or [0b] in either case, then
    digits of that radix; it takes no sign. *)
Definition nonDecimalIntegerLiteral (s : jsstring) : option Z :=
  match s with
  | z :: p :: ds =>
      if N.eqb z 48 then
        if N.eqb p 120 || N.eqb p 88 then someDigitsIn 16 ds
        else if N.eqb p 111 || N.eqb p 79 then someDigitsIn 8 ds
        else if N.eqb p 98 || N.eqb p 66 then someDigitsIn 2 ds
        else None
      else None
  | _ => None
  end.

(** The double nearest to [num / den] (both positive), ties to even, as
    [Number.isInteger] classes it.  [e2] is the binary exponent of the
    quotient, [k] the exponent of the unit in the last place (that of the
    subnormals at least) and [s] the rounded significand; from 2^1024 on the
    result is infinite. *)
Definition roundToDouble (num den : Z) : number :=
  let t := (Z.log2 num - Z.log2 den)%Z in
  let reaches := if (0 <=? t)%Z then (den * 2 ^ t <=? num)%Z
                 else (den <=? num * 2 ^ (- t))%Z in
  let e2 := if reaches then t else (t - 1)%Z in
  let k := Z.max (e2 - 52) (-1074) in
  let n := if (0 <=? k)%Z then num else (num * 2 ^ (- k))%Z in
  let d := if (0 <=? k)%Z then (den * 2 ^ k)%Z else den in
  let q := (n / d)%Z in
  let r := (n mod d)%Z in
  let s := if (2 * r <? d)%Z then q
           else if (d <? 2 * r)%Z then (q + 1)%Z
           else if Z.even q then q else (q + 1)%Z in
  if (0 <=? k)%Z then
    if (2 ^ 1024 <=? s * 2 ^ k)%Z then NonInteger else Integer (s * 2 ^ k)
  else if (s mod 2 ^ (- k) =? 0)%Z then Integer (s / 2 ^ (- k))
  else NonInteger.

(** The double nearest to [m] times ten to the [e], for [m] not negative.
    Above 10^400 it is infinite and below 10^-400 it is zero: the two tests
    on [e] keep the powers of ten that are computed small. *)
Definition roundDecimal (m e : Z) : number :=
  if (m =? 0)%Z then Integer 0
  else if (400 <? e)%Z then NonInteger
  else if (e <? - (Z.log2 m + 401))%Z then Integer 0
  else if (0 <=? e)%Z then roundToDouble (m * 10 ^ e) 1
  else roundToDouble m (10 ^ (- e)).

Definition negate (x : number) : number :=
  match x with Integer n => Integer (- n) | NonInteger => NonInteger end.

Definition StringToNumber (str : jsstring) : number :=
  let s := trimString str in
  if isEmpty s then Integer 0
  else
    match nonDecimalIntegerLiteral s with
    | Some m => roundDecimal m 0
    | None =>
        match strDecimalLiteral s with
        | Some (minus, Finite m e) =>
            if minus then negate (roundDecimal m e) else roundDecimal m e
        | Some (_, Infinity) => NonInteger
        | None => NonInteger
        end
    end.



(** An open connection that has consumed nothing yet, as [new] followed by
    [announceConnection] leaves it. *)
Definition opened (u : jsstring) : EventSourcePolyfill :=
  fst (announceConnection (fst (new u false))).

(** A handle of a 200 response that is still loading. *)
Definition loading (u : jsstring) : XMLHttpRequest :=
  {| xhr_handle := 0; xhr_readyState := 3; xhr_status := 200;
     xhr_ContentType := Some (lit "text/event-stream"); xhr_Location := None;
     xhr_responseText := Some []; xhr_responseURL := u |}.

(** The same handle once [text] has been received. *)
Definition receiving (u text : jsstring) : XMLHttpRequest :=
  {| xhr_handle := 0; xhr_readyState := 3; xhr_status := 200;
     xhr_ContentType := Some (lit "text/event-stream"); xhr_Location := None;
     xhr_responseText := Some text; xhr_responseURL := u |}.

(** The handle [handle] of a response without a body, as a handler sees it
    when the handle is in the state [state]. *)
Definition response (handle : nat) (state status : Z)
           (location : option jsstring) : XMLHttpRequest :=
  {| xhr_handle := handle; xhr_readyState := state; xhr_status := status;
     xhr_ContentType := None; xhr_Location := location;
     xhr_responseText := Some []; xhr_responseURL := lit "/s" |}.

(** ** Vocabulary of the statements *)

(** [dataLine line v]: [line] is a [data] field line whose value is [v], in
    one of the three ways the wire format writes it. *)
Inductive dataLine : jsstring -> jsstring -> Prop :=
| dataLine_bare : dataLine Fields.DATA []
| dataLine_colon v :
    hd_error v <> Some SPACE -> dataLine (Fields.DATA ++ COLON :: v) v
| dataLine_space v : dataLine (Fields.DATA ++ COLON :: SPACE :: v) v.

(** The data buffer after the values [vs]: each one followed by a line
    feed (line 179). *)
Definition terminated (vs : list jsstring) : jsstring :=
  flat_map (fun v => v ++ [LF]) vs.

(** A character that the text normaliser leaves alone and that does not
    end a line: ASCII other than CR and LF. *)
Definition plain (c : char) : Prop := (c < 128)%N /\ c <> CR /\ c <> LF.

(** The value of a request header, if the request carries it. *)
Definition getHeader (name : jsstring) (headers : list (jsstring * jsstring))
  : option jsstring :=
  option_map snd (find (fun h => eqb (fst h) name) headers).

(** A notification of a response whose status is [status]. *)
Definition ofStatus (status : Z) (n : notification) : Prop :=
  match n with
  | ReadyStateChange x => xhr_status x = status
  | _ => False
  end.

(** A progress notification: headers received (2) or loading (3). *)
Definition inProgress (x : XMLHttpRequest) : Prop :=
  xhr_readyState x = 2%Z \/ xhr_readyState x = 3%Z.

(** The four field names the decoder acts on. *)
Definition knownField (name : jsstring) : Prop :=
  name = Fields.EVENT \/ name = Fields.DATA \/ name = Fields.ID \/
  name = Fields.RETRY.

(** The shape [connect] gives every request, for an object created with
    the credentials flag [w]. *)
Definition wellFormed (w : bool) (r : Request) : Prop :=
  req_method r = lit "GET" /\ req_withCredentials r = w /\
  getHeader (lit "Accept") (req_headers r) = Some (lit "text/event-stream") /\
  getHeader (lit "Cache-Control") (req_headers r) = Some (lit "no-cache").

(** A piece of response text that ends where an event ends, on a blank
    line, and that the text normaliser leaves as it is (ASCII, no CR). *)
Definition aligned (c : jsstring) : Prop :=
  (exists body, c = body ++ [LF; LF]) /\
  Forall (fun ch => (ch < 128)%N /\ ch <> CR) c.

(** [fieldLine name line v]: [line] is the field [name] with the value
    [v], in one of the three ways the wire format writes a field. *)
Inductive fieldLine (name : jsstring) : jsstring -> jsstring -> Prop :=
| fieldLine_bare : fieldLine name name []
| fieldLine_colon v :
    hd_error v <> Some SPACE -> fieldLine name (name ++ COLON :: v) v
| fieldLine_space v : fieldLine name (name ++ COLON :: SPACE :: v) v.

(** Text that the text normaliser leaves as it is: ASCII without CR. *)
Definition normal (s : jsstring) : Prop :=
  Forall (fun ch => (ch < 128)%N /\ ch <> CR) s.

(** The handle [x] once the response text is [text]. *)
Definition withText (x : XMLHttpRequest) (text : jsstring) : XMLHttpRequest :=
  {| xhr_handle := xhr_handle x; xhr_readyState := xhr_readyState x;
     xhr_status := xhr_status x; xhr_ContentType := xhr_ContentType x;
     xhr_Location := xhr_Location x; xhr_responseText := Some text;
     xhr_responseURL := xhr_responseURL x |}.

(** The part of the object the stream decoder does not touch. *)
Definition connectionOf (t : EventSourcePolyfill) :=
  (url t, withCredentials t, readyState t, canReconnect t, xhr t,
   responseTextCursor t, reconnectionTime t).

(** A message event whose origin is [origin]. *)
Definition messageFrom (origin : jsstring) (e : effect) : Prop :=
  exists type data id, e = dispatchEvent (MessageEvent type data origin id).

(** Listeners none of which ever calls [close()]. *)
Definition quiet (Memory : Type) (listener : Event -> Memory -> Memory * bool)
  : Prop :=
  forall e memory, snd (listener e memory) = false.

(** A method with the listeners inside does to the object, and to its
    collaborators, what the method without them does. *)
Definition agree (Memory : Type) (h : WithListeners.handler Memory)
           (m : method) : Prop :=
  forall s, fst (fst (h s)) = fst (m (fst s)) /\ snd (h s) = snd (m (fst s)).

(** What the stream decoder can do to the outside when listeners call
    back: dispatch a message event, or abort a handle in their [close()]. *)
Definition messageOrAbort (origin : jsstring) (e : effect) : Prop :=
  messageFrom origin e \/ exists handle, e = xhrAbort handle.

(** What a piece of the stream decoder does with listeners that call
    back: the object keeps its [readyState] or is closed, the cursor stays,
    and the effects are message events and the aborts of [close()]. *)
Definition decodes (origin : jsstring) (before after : EventSourcePolyfill)
           (es : list effect) : Prop :=
  (readyState after = readyState before \/ readyState after = CLOSED) /\
  responseTextCursor after = responseTextCursor before /\
  Forall (messageOrAbort origin) es.

(** * Properties *)

(** ** Strings *)

Lemma eqb_eq (a b : jsstring) : eqb a b = true <-> a = b.
Proof.
  unfold eqb. destruct (list_eq_dec N.eq_dec a b); split; congruence.
Qed.

Lemma eqb_refl (a : jsstring) : eqb a a = true.
Proof. now apply eqb_eq. Qed.

Lemma isEmpty_true (s : jsstring) : isEmpty s = true <-> s = [].
Proof. destruct s; simpl; split; congruence. Qed.

Lemma isEmpty_false (s : jsstring) : isEmpty s = false <-> s <> [].
Proof. destruct s; simpl; split; congruence. Qed.

Lemma indexOf_lower (s : jsstring) (c : char) : (-1 <= indexOf s c)%Z.
Proof.
  induction s as [|x s IH]; simpl; [lia|].
  destruct (N.eqb x c); [lia|].
  destruct (Z.eqb_spec (indexOf s c) (-1)); lia.
Qed.

Lemma indexOf_absent (s : jsstring) (c : char) :
  ~ In c s -> indexOf s c = (-1)%Z.
Proof.
  induction s as [|x s IH]; simpl; intros H; [reflexivity|].
  destruct (N.eqb_spec x c) as [->|_]; [tauto|].
  rewrite IH by tauto. reflexivity.
Qed.

Lemma indexOf_first (name : jsstring) (c : char) (rest : jsstring) :
  ~ In c name -> indexOf (name ++ c :: rest) c = Z.of_nat (List.length name).
Proof.
  induction name as [|x name IH]; simpl; intros H.
  - now rewrite N.eqb_refl.
  - destruct (N.eqb_spec x c) as [->|_]; [tauto|].
    rewrite IH by tauto.
    destruct (Z.eqb_spec (Z.of_nat (List.length name)) (-1)); lia.
Qed.

Lemma indexOf_head (c : char) (s : jsstring) :
  (indexOf s c =? 0)%Z = match s with x :: _ => N.eqb x c | [] => false end.
Proof.
  destruct s as [|x s]; simpl; [reflexivity|].
  destruct (N.eqb x c); [reflexivity|].
  pose proof (indexOf_lower s c).
  destruct (Z.eqb_spec (indexOf s c) (-1)); [reflexivity|].
  apply Z.eqb_neq. lia.
Qed.

Lemma indexOf_present (s : jsstring) (c : char) :
  In c s -> indexOf s c <> (-1)%Z.
Proof.
  induction s as [|x s IH]; simpl; [tauto|].
  intros [->|H].
  - rewrite N.eqb_refl. lia.
  - destruct (N.eqb x c); [lia|].
    specialize (IH H). pose proof (indexOf_lower s c).
    destruct (Z.eqb_spec (indexOf s c) (-1)); lia.
Qed.

Lemma split_line (l rest : jsstring) :
  ~ In LF l -> split (l ++ LF :: rest) = l :: split rest.
Proof.
  induction l as [|c l IH]; intros H; [reflexivity|].
  change ((c :: l) ++ LF :: rest) with (c :: (l ++ LF :: rest)).
  cbn [split]. destruct (N.eqb_spec c LF) as [E|_]; [elim H; now left|].
  rewrite IH; [reflexivity|]. intros F. apply H. now right.
Qed.

Lemma split_lines (lines : list jsstring) (rest : jsstring) :
  Forall (fun l => ~ In LF l) lines ->
  split (flat_map (fun l => l ++ [LF]) lines ++ rest) = lines ++ split rest.
Proof.
  induction 1 as [|l lines Hl _ IH]; [reflexivity|].
  cbn [flat_map]. rewrite <- !app_assoc. cbn [app].
  rewrite split_line by assumption. now rewrite IH.
Qed.

Lemma decodeUTF8_ascii (s : jsstring) :
  Forall (fun c => (c < 128)%N) s -> decodeUTF8 s = Some s.
Proof.
  induction 1 as [|c s Hc _ IH]; [reflexivity|].
  cbn [decodeUTF8]. apply N.ltb_lt in Hc. rewrite Hc, IH. reflexivity.
Qed.

Lemma normalizeToLF_without_CR (s : jsstring) :
  ~ In CR s -> normalizeToLF s = s.
Proof.
  induction s as [|c s IH]; intros H; [reflexivity|].
  cbn [normalizeToLF]. destruct (N.eqb_spec c CR) as [E|_]; [elim H; now left|].
  rewrite IH; [reflexivity|]. intros F. apply H. now right.
Qed.

(** ** Field parser *)

Lemma parseLine_field (name v : jsstring) :
  name <> [] -> ~ In COLON name ->
  parseLine (name ++ COLON :: v) =
    Some {| field := name;
            value := if (indexOf v SPACE =? 0)%Z then slice1 v else v |}.
Proof.
  intros Hne Hnc. unfold parseLine.
  rewrite (indexOf_first name COLON v Hnc).
  assert (0 < List.length name)%nat by (destruct name; simpl; [congruence|lia]).
  destruct (Z.eqb_spec (Z.of_nat (List.length name)) 0); [lia|].
  destruct (Z.eqb_spec (Z.of_nat (List.length name)) (-1)); [lia|]. simpl.
  unfold substringTo, substringFrom.
  rewrite Nat2Z.id.
  replace (Z.to_nat (Z.of_nat (List.length name) + 1)) with (S (List.length name)) by lia.
  rewrite firstn_app, Nat.sub_diag, firstn_all. simpl firstn. rewrite app_nil_r.
  rewrite skipn_app.
  replace (S (List.length name) - List.length name)%nat with 1%nat by lia.
  rewrite (skipn_all2 name) by lia.
  reflexivity.
Qed.

(** C6.  For a non-empty line the loop hands to [processField] what the
    field parser makes of it.  A colon at position 0 makes the line a
    comment, which is discarded; a first colon elsewhere splits it into the
    name before it and the value after it, less one leading space when there
    is one (whatever follows that space, a second space too, is kept);
    without a colon the whole line is the name and the value is empty. *)
Theorem parseLine_cases (line : jsstring) :
  line <> [] ->
  (forall ToNumber origin this,
     interpretLine ToNumber origin line this =
       match parseLine line with
       | None => (this, [])
       | Some payload => processField ToNumber payload this
       end) /\
  (forall rest, line = COLON :: rest -> parseLine line = None) /\
  (forall name rest, name <> [] -> ~ In COLON name ->
     line = name ++ COLON :: SPACE :: rest ->
     parseLine line = Some {| field := name; value := rest |}) /\
  (forall name rest, name <> [] -> ~ In COLON name ->
     hd_error rest <> Some SPACE ->
     line = name ++ COLON :: rest ->
     parseLine line = Some {| field := name; value := rest |}) /\
  (~ In COLON line -> parseLine line = Some {| field := line; value := [] |}).
Proof.
  intros Hline. repeat split.
  - intros. unfold interpretLine.
    destruct line; [congruence|]. simpl isEmpty. cbv iota.
    destruct (parseLine _); reflexivity.
  - intros. subst line. reflexivity.
  - intros name rest Hne Hnc ->. rewrite parseLine_field by assumption.
    reflexivity.
  - intros name rest Hne Hnc Hsp ->. rewrite parseLine_field by assumption.
    rewrite indexOf_head. destruct rest as [|c rest]; [reflexivity|].
    destruct (N.eqb_spec c SPACE) as [->|_]; [now elim Hsp|reflexivity].
  - intros Hnc. unfold parseLine. rewrite (indexOf_absent _ _ Hnc). reflexivity.
Qed.

(** ** Stream decoder *)

Section Decoder.

Variable ToNumber : jsstring -> number.

Lemma seq_run (f g : method) (this : EventSourcePolyfill) :
  (f ;; g)%method this =
    (fst (g (fst (f this))), snd (f this) ++ snd (g (fst (f this)))).
Proof.
  unfold seq. destruct (f this) as [t1 e1]. simpl.
  destruct (g t1) as [t2 e2]. reflexivity.
Qed.

Lemma interpretLines_app (origin : jsstring) (l1 l2 : list jsstring)
      (this : EventSourcePolyfill) :
  interpretLines ToNumber origin (l1 ++ l2) this =
    (interpretLines ToNumber origin l1 ;; interpretLines ToNumber origin l2)%method this.
Proof.
  revert this. induction l1 as [|l l1 IH]; intros this; simpl.
  - rewrite seq_run. simpl. now destruct (interpretLines _ _ l2 this).
  - rewrite !seq_run, IH, !seq_run. simpl. now rewrite app_assoc.
Qed.

Lemma processField_data (v : jsstring) (this : EventSourcePolyfill) :
  processField ToNumber {| field := Fields.DATA; value := v |} this =
    (set_dataBuffer (dataBuffer this ++ v ++ [LF]) this, []).
Proof. reflexivity. Qed.

Lemma interpretLine_data (origin line v : jsstring) (this : EventSourcePolyfill) :
  dataLine line v ->
  interpretLine ToNumber origin line this =
    (set_dataBuffer (dataBuffer this ++ v ++ [LF]) this, []).
Proof.
  assert (Hd : ~ In COLON Fields.DATA)
    by (cbv; intros H; repeat (destruct H as [H|H]; [discriminate|]); exact H).
  assert (Hn : Fields.DATA <> []) by discriminate.
  intros [|w Hw|w].
  - reflexivity.
  - unfold interpretLine. change (isEmpty (Fields.DATA ++ COLON :: w)) with false.
    cbv iota. rewrite parseLine_field by assumption.
    rewrite indexOf_head. destruct w as [|c w]; [reflexivity|].
    destruct (N.eqb_spec c SPACE) as [->|_]; [now elim Hw|reflexivity].
  - unfold interpretLine.
    change (isEmpty (Fields.DATA ++ COLON :: SPACE :: w)) with false.
    cbv iota. rewrite parseLine_field by assumption. reflexivity.
Qed.

Lemma interpretLines_data (origin : jsstring) (lines vs : list jsstring) :
  Forall2 dataLine lines vs ->
  forall this,
    interpretLines ToNumber origin lines this =
      (set_dataBuffer (dataBuffer this ++ terminated vs) this, []).
Proof.
  induction 1 as [|line v lines vs Hl _ IH]; intros this; simpl.
  - rewrite app_nil_r. now destruct this.
  - rewrite seq_run, (interpretLine_data origin line v this Hl), IH. simpl.
    rewrite <- !app_assoc. reflexivity.
Qed.

Lemma terminated_join (vs : list jsstring) :
  vs <> [] -> terminated vs = join [LF] vs ++ [LF].
Proof.
  induction vs as [|v vs IH]; [congruence|intros _].
  destruct vs as [|v' vs].
  - simpl. now rewrite app_nil_r.
  - change (terminated (v :: v' :: vs)) with ((v ++ [LF]) ++ terminated (v' :: vs)).
    rewrite IH by discriminate.
    change (join [LF] (v :: v' :: vs)) with (v ++ [LF] ++ join [LF] (v' :: vs)).
    now rewrite <- !app_assoc.
Qed.

Lemma dispatchMessageEvent_flush (origin payload : jsstring)
      (this : EventSourcePolyfill) :
  dataBuffer this = payload ++ [LF] ->
  dispatchMessageEvent origin this =
    (set_dataBuffer [] (set_eventTypeBuffer []
       (set_dataBuffer payload (set_lastEventId (idBuffer this) this))),
     [dispatchEvent
        (MessageEvent (if isEmpty (eventTypeBuffer this) then lit "message"
                       else eventTypeBuffer this)
                      payload origin (idBuffer this))]).
Proof.
  intros H. unfold dispatchMessageEvent. simpl. rewrite H.
  replace (isEmpty (payload ++ [LF])) with false
    by (now destruct payload).
  replace (lastChar (payload ++ [LF])) with (Some LF)
    by (unfold lastChar; rewrite last_last; now destruct payload).
  simpl. unfold sliceDropLast. rewrite removelast_last. reflexivity.
Qed.

(** C4.  A blank line copies the pending id to [lastEventId] whatever the
    data buffer holds; when the data buffer is empty, it dispatches nothing
    and leaves the event-type buffer empty. *)
Theorem blank_line_promotes_id (origin : jsstring) (this : EventSourcePolyfill) :
  lastEventId (fst (interpretLine ToNumber origin [] this)) = idBuffer this /\
  (dataBuffer this = [] ->
   snd (interpretLine ToNumber origin [] this) = [] /\
   eventTypeBuffer (fst (interpretLine ToNumber origin [] this)) = []).
Proof.
  change (interpretLine ToNumber origin [] this)
    with (dispatchMessageEvent origin this).
  unfold dispatchMessageEvent. simpl. split.
  - destruct (isEmpty (dataBuffer this)); [reflexivity|].
    destruct (lastChar (dataBuffer this)) as [c|]; [|reflexivity].
    destruct (N.eqb c LF); reflexivity.
  - intros ->. simpl. split; reflexivity.
Qed.

Lemma interpretLines_data_flush (origin : jsstring) (lines vs : list jsstring)
      (this : EventSourcePolyfill) :
  Forall2 dataLine lines vs -> vs <> [] -> dataBuffer this = [] ->
  interpretLines ToNumber origin (lines ++ [[]]) this =
    (set_dataBuffer [] (set_eventTypeBuffer []
       (set_dataBuffer (join [LF] vs) (set_lastEventId (idBuffer this) this))),
     [dispatchEvent
        (MessageEvent (if isEmpty (eventTypeBuffer this) then lit "message"
                       else eventTypeBuffer this)
                      (join [LF] vs) origin (idBuffer this))]).
Proof.
  intros Hl Hvs Hd.
  rewrite interpretLines_app, seq_run, (interpretLines_data origin lines vs Hl).
  rewrite Hd. cbn [app fst snd].
  change (interpretLines ToNumber origin [[]])
    with (dispatchMessageEvent origin ;; skip)%method.
  rewrite seq_run.
  rewrite (dispatchMessageEvent_flush origin (join [LF] vs))
    by (simpl; now apply terminated_join).
  simpl. reflexivity.
Qed.

(** C5.  After [data] lines with the values [vs] (at least one, nothing
    pending before them) a blank line dispatches one message event.  Its
    payload is the values joined by line feeds, which is the buffer, where
    every value is followed by a line feed, less its last line feed; its
    type is the event-type buffer, or ["message"] when that is empty. *)
Theorem data_lines_then_blank (origin : jsstring) (lines vs : list jsstring)
        (this : EventSourcePolyfill) :
  Forall2 dataLine lines vs -> vs <> [] -> dataBuffer this = [] ->
  snd (interpretLines ToNumber origin (lines ++ [[]]) this) =
    [dispatchEvent
       (MessageEvent (if isEmpty (eventTypeBuffer this) then lit "message"
                      else eventTypeBuffer this)
                     (join [LF] vs) origin (idBuffer this))] /\
  terminated vs = join [LF] vs ++ [LF] /\
  dataBuffer (fst (interpretLines ToNumber origin (lines ++ [[]]) this)) = [] /\
  eventTypeBuffer (fst (interpretLines ToNumber origin (lines ++ [[]]) this)) = [].
Proof.
  intros Hl Hvs Hd.
  rewrite (interpretLines_data_flush origin lines vs this Hl Hvs Hd).
  repeat split. now apply terminated_join.
Qed.

(** The same on the wire: the text of the [data] lines, each ended by a
    line feed, and of the blank line, arriving in one piece on an open
    connection, dispatches that one event. *)
Lemma interpretStream_data_event (x : XMLHttpRequest) (received : jsstring)
      (lines vs : list jsstring) (this : EventSourcePolyfill) :
  readyState this = OPEN -> dataBuffer this = [] ->
  responseTextCursor this = List.length received ->
  xhr_responseText x =
    Some (received ++ flat_map (fun l => l ++ [LF]) lines ++ [LF]) ->
  Forall (Forall plain) lines ->
  Forall2 dataLine lines vs -> vs <> [] ->
  snd (interpretStream ToNumber x this) =
    [dispatchEvent
       (MessageEvent (if isEmpty (eventTypeBuffer this) then lit "message"
                      else eventTypeBuffer this)
                     (join [LF] vs) (xhr_responseURL x) (idBuffer this))].
Proof.
  intros Hr Hd Hc Ht Hp Hl Hvs.
  set (wire := flat_map (fun l => l ++ [LF]) lines ++ [LF]) in *.
  assert (Hw : Forall (fun c => (c < 128)%N /\ c <> CR) wire).
  { unfold wire. apply Forall_app. split.
    - apply Forall_flat_map. revert Hp. apply Forall_impl. intros l Hl'.
      apply Forall_app. split.
      + revert Hl'. apply Forall_impl. unfold plain. tauto.
      + repeat constructor. discriminate.
    - repeat constructor. discriminate. }
  unfold interpretStream. rewrite Hr, Ht, Hc. cbn [ReadyState_eqb negb].
  change (negb (ReadyState_eqb OPEN OPEN)) with false. cbv iota.
  unfold substringFrom. rewrite skipn_app, Nat.sub_diag, skipn_all. cbn [skipn app].
  rewrite decodeUTF8_ascii
    by (revert Hw; apply Forall_impl; tauto).
  rewrite normalizeToLF_without_CR
    by (intros F; rewrite Forall_forall in Hw; now destruct (Hw _ F)).
  unfold wire. rewrite split_lines.
  2:{ revert Hp. apply Forall_impl. intros l Hl' F.
      rewrite Forall_forall in Hl'. now destruct (Hl' _ F) as (_ & _ & E). }
  change (split [LF]) with ([[]] ++ [[] : jsstring]).
  rewrite app_assoc, interpretLines_app, seq_run.
  set (this0 := set_responseTextCursor _ this).
  pose proof (interpretLines_data_flush (xhr_responseURL x) lines vs this0
                Hl Hvs Hd) as E.
  unfold jsstring in *. rewrite E. reflexivity.
Qed.

(** A split between two lines is enough to change the events: the first
    piece ends in a line feed, [split] gives an empty last element for it,
    and that element flushes the event before its second [data] line has
    arrived. *)
Lemma line_boundary_split_flushes_early :
  dispatched (snd (feed ToNumber (loading (lit "/s")) []
                        [lit "data: a" ++ [LF] ++ lit "data: b" ++ [LF; LF]]
                        (opened (lit "/s")))) =
    [MessageEvent (lit "message") (lit "a" ++ [LF] ++ lit "b") (lit "/s") []] /\
  dispatched (snd (feed ToNumber (loading (lit "/s")) []
                        [lit "data: a" ++ [LF]; lit "data: b" ++ [LF; LF]]
                        (opened (lit "/s")))) =
    [MessageEvent (lit "message") (lit "a") (lit "/s") [];
     MessageEvent (lit "message") (lit "b") (lit "/s") []].
Proof. split; reflexivity. Qed.

End Decoder.

(** ** Fields that guard their value, and the reconnection they feed *)

Section Reconnection.

Variable ToNumber : jsstring -> number.

(** A dropped connection and the expiry of the timer it sets: an [error]
    event, the timer with the current delay, and, when the timer expires,
    the new request, with the last committed id when there is one. *)
Lemma reconnect_sequence (x : XMLHttpRequest) (this : EventSourcePolyfill) :
  xhr_readyState x = 4%Z -> readyState this <> CLOSED -> canReconnect this = true ->
  exists handle request,
    run ToNumber [ReadyStateChange x; TimerExpired] this =
      (set_xhr (Some handle) (set_readyState CONNECTING this),
       [dispatchEvent (PlainEvent (lit "error"));
        setTimeout (reconnectionTime this);
        xhrSend handle request]) /\
    req_url request = url this /\
    getHeader (lit "Last-Event-ID") (req_headers request) =
      (if isEmpty (lastEventId this) then None else Some (lastEventId this)).
Proof.
  intros Hx Hr Hc.
  destruct this as [u w l t cur eb ib db c r h]. simpl in Hr, Hc. subst c.
  exists (match h with Some k => S k | None => O end). eexists.
  unfold run, react, seq, onreadystatechange, timerCallback. rewrite Hx.
  split; [|split].
  - destruct r; [reflexivity|reflexivity|congruence].
  - reflexivity.
  - simpl. destruct l; reflexivity.
Qed.

(** C7.  An [id] field whose value contains NUL changes nothing: the
    pending id and the committed id stay as they were.  On the reconnection
    that follows a dropped connection the request carries the committed id
    as [Last-Event-ID], and carries no such header when that id is empty. *)
Theorem id_with_NUL_is_ignored (v : jsstring) (this : EventSourcePolyfill)
        (x : XMLHttpRequest) :
  In NUL v ->
  let this' :=
    fst (processField ToNumber {| field := Fields.ID; value := v |} this) in
  processField ToNumber {| field := Fields.ID; value := v |} this = (this, []) /\
  idBuffer this' = idBuffer this /\
  lastEventId this' = lastEventId this /\
  (xhr_readyState x = 4%Z -> readyState this' <> CLOSED ->
   canReconnect this' = true ->
     exists request,
       sent (snd (run ToNumber [ReadyStateChange x; TimerExpired] this')) =
         [request] /\
       getHeader (lit "Last-Event-ID") (req_headers request) =
         (if isEmpty (lastEventId this) then None
          else Some (lastEventId this))).
Proof.
  intros Hv this'.
  assert (E : processField ToNumber {| field := Fields.ID; value := v |} this
              = (this, [])).
  { unfold processField. simpl.
    destruct (Z.eqb_spec (indexOf v NUL) (-1)) as [H|_]; [|reflexivity].
    now apply indexOf_present in Hv. }
  subst this'. rewrite E. cbn [fst]. repeat split.
  intros Hx Hr Hc.
  destruct (reconnect_sequence x this Hx Hr Hc) as (handle & request & R & _ & H).
  exists request. rewrite R. split; [reflexivity|exact H].
Qed.

End Reconnection.

(** ** The [retry] field and the numeric conversion *)














(** ** Connection state machine *)

Section Machine.

Variable ToNumber : jsstring -> number.

Ltac branches :=
  repeat match goal with
         | |- context [if ?b then _ else _] => destruct b
         | |- context [match ?o with Some _ => _ | None => _ end] => destruct o
         end.

Lemma processField_canReconnect (p : MessagePayload) (this : EventSourcePolyfill) :
  canReconnect (fst (processField ToNumber p this)) = canReconnect this.
Proof. unfold processField, assign, skip. branches; reflexivity. Qed.

Lemma dispatchMessageEvent_canReconnect (origin : jsstring)
      (this : EventSourcePolyfill) :
  canReconnect (fst (dispatchMessageEvent origin this)) = canReconnect this.
Proof. unfold dispatchMessageEvent. simpl. branches; reflexivity. Qed.

Lemma interpretLines_canReconnect (origin : jsstring) (lines : list jsstring) :
  forall this,
    canReconnect (fst (interpretLines ToNumber origin lines this)) =
      canReconnect this.
Proof.
  induction lines as [|line lines IH]; intros this; [reflexivity|].
  simpl. rewrite seq_run. cbn [fst]. rewrite IH.
  unfold interpretLine. destruct (isEmpty line).
  - apply dispatchMessageEvent_canReconnect.
  - destruct (parseLine line); [apply processField_canReconnect|reflexivity].
Qed.

Lemma interpretStream_canReconnect (x : XMLHttpRequest)
      (this : EventSourcePolyfill) :
  canReconnect (fst (interpretStream ToNumber x this)) = canReconnect this.
Proof.
  unfold interpretStream.
  destruct (negb _); [reflexivity|].
  destruct (xhr_responseText x); [|reflexivity].
  destruct (decodeUTF8 _); [|reflexivity].
  now rewrite interpretLines_canReconnect.
Qed.

(** [canReconnect] is never assigned [true]. *)
Lemma react_latched (n : notification) (this : EventSourcePolyfill) :
  canReconnect this = false ->
  canReconnect (fst (react ToNumber n this)) = false.
Proof.
  intros H. destruct n as [x| |]; simpl.
  - unfold onreadystatechange.
    destruct (_ || _); [exact H|].
    destruct (xhr_readyState x =? 4)%Z.
    { unfold reestablishConnection. rewrite H.
      rewrite orb_true_r. exact H. }
    destruct (xhr_status x =? 200)%Z.
    { rewrite seq_run. cbn [fst]. rewrite interpretStream_canReconnect.
      unfold handleConnection. branches; try exact H; reflexivity. }
    destruct (xhr_status x =? 204)%Z; [reflexivity|].
    destruct (_ || _); [|reflexivity].
    rewrite seq_run. cbn [fst]. branches; reflexivity.
  - unfold timerCallback. destruct (negb _); [exact H|]. exact H.
  - unfold close. simpl. destruct (xhr this); exact H.
Qed.

Lemma run_latched (ns : list notification) :
  forall this, canReconnect this = false ->
               canReconnect (fst (run ToNumber ns this)) = false.
Proof.
  induction ns as [|n ns IH]; intros this H; [exact H|].
  simpl. rewrite seq_run. cbn [fst]. apply IH. now apply react_latched.
Qed.

(** Without permission to reconnect, the completion of a transport changes
    nothing and has no effect. *)
Lemma completion_when_latched (x : XMLHttpRequest) (this : EventSourcePolyfill) :
  xhr_readyState x = 4%Z -> canReconnect this = false ->
  onreadystatechange ToNumber x this = (this, []).
Proof.
  intros Hx Hc. unfold onreadystatechange, reestablishConnection.
  rewrite Hx, Hc. simpl.
  destruct (ReadyState_eqb (readyState this) CLOSED); reflexivity.
Qed.

(** A closed object absorbs every notification; a further [close()] aborts
    the handle again and changes nothing. *)
Lemma react_closed (n : notification) (this : EventSourcePolyfill) :
  readyState this = CLOSED ->
  fst (react ToNumber n this) = this /\
  (n <> CloseCalled -> snd (react ToNumber n this) = []) /\
  dispatched (snd (react ToNumber n this)) = [] /\
  sent (snd (react ToNumber n this)) = [] /\
  timers (snd (react ToNumber n this)) = [].
Proof.
  intros H. destruct n as [x| |]; simpl.
  - unfold onreadystatechange. rewrite H, orb_true_r. simpl. tauto.
  - unfold timerCallback. rewrite H. simpl. tauto.
  - unfold close. destruct this as [u w l t cur eb ib db c r h].
    simpl in H. subst r. destruct h; simpl; repeat split; congruence.
Qed.

Lemma dispatched_app (a b : list effect) :
  dispatched (a ++ b) = dispatched a ++ dispatched b.
Proof. apply flat_map_app. Qed.

Lemma sent_app (a b : list effect) : sent (a ++ b) = sent a ++ sent b.
Proof. apply flat_map_app. Qed.

Lemma timers_app (a b : list effect) : timers (a ++ b) = timers a ++ timers b.
Proof. apply flat_map_app. Qed.

Lemma run_closed (ns : list notification) (this : EventSourcePolyfill) :
  readyState this = CLOSED ->
  fst (run ToNumber ns this) = this /\
  (~ In CloseCalled ns -> snd (run ToNumber ns this) = []) /\
  dispatched (snd (run ToNumber ns this)) = [] /\
  sent (snd (run ToNumber ns this)) = [] /\
  timers (snd (run ToNumber ns this)) = [].
Proof.
  intros H. induction ns as [|n ns IH]; simpl; [tauto|].
  destruct (react_closed n this H) as (E & Hn & Hd & Hs & Ht).
  rewrite seq_run. cbn [fst snd]. rewrite E.
  destruct IH as (IE & IHn & IHd & IHs & IHt).
  rewrite dispatched_app, sent_app, timers_app, Hd, Hs, Ht, IHd, IHs, IHt.
  repeat split; try assumption.
  intros Hin. rewrite Hn, IHn; [reflexivity| |]; intuition congruence.
Qed.

Lemma close_closes (this : EventSourcePolyfill) :
  readyState (fst (close this)) = CLOSED.
Proof. unfold close. simpl. now destruct (xhr this). Qed.

(** C9.  [close()] leaves the object [CLOSED]; whatever notifications
    follow, transport or timer, the object stays exactly as [close()] left
    it, dispatches no event, sends no request and sets no timer.  So when a
    connection drops, which sets the reconnection timer, and [close()] is
    called before the timer expires, the expiry sends no request. *)
Theorem close_is_final (this : EventSourcePolyfill) (ns : list notification) :
  readyState (fst (close this)) = CLOSED /\
  fst (run ToNumber ns (fst (close this))) = fst (close this) /\
  (~ In CloseCalled ns -> snd (run ToNumber ns (fst (close this))) = []) /\
  dispatched (snd (run ToNumber ns (fst (close this)))) = [] /\
  sent (snd (run ToNumber ns (fst (close this)))) = [] /\
  timers (snd (run ToNumber ns (fst (close this)))) = [] /\
  (forall x, xhr_readyState x = 4%Z -> readyState this <> CLOSED ->
             canReconnect this = true ->
     timers (snd (onreadystatechange ToNumber x this)) = [reconnectionTime this] /\
     sent (snd (run ToNumber (ReadyStateChange x :: CloseCalled :: TimerExpired :: ns)
                    this)) = []).
Proof.
  split; [apply close_closes|].
  destruct (run_closed ns (fst (close this)) (close_closes this))
    as (E & Hn & Hd & Hs & Ht).
  repeat split; try assumption.
  - destruct this as [u w l t cur eb ib db c r h]. simpl in *. subst c.
    unfold onreadystatechange. rewrite H.
    destruct r; [reflexivity|reflexivity|congruence].
  - change (ReadyStateChange x :: CloseCalled :: TimerExpired :: ns)
      with ([ReadyStateChange x; CloseCalled] ++ TimerExpired :: ns).
    set (this1 := fst (onreadystatechange ToNumber x this)).
    simpl run. rewrite !seq_run. cbn [fst snd]. fold this1.
    destruct (run_closed (TimerExpired :: ns) (fst (close this1)) (close_closes this1))
      as (_ & _ & _ & Hs' & _).
    simpl run in Hs'. rewrite !seq_run in Hs'. cbn [fst snd] in Hs'.
    rewrite !sent_app. rewrite !sent_app in Hs'. rewrite Hs'.
    assert (S1 : sent (snd (onreadystatechange ToNumber x this)) = []).
    { destruct this as [u w l t cur eb ib db c r h]. simpl in *. subst c.
      unfold onreadystatechange. rewrite H.
      destruct r; [reflexivity|reflexivity|congruence]. }
    rewrite S1. unfold close. simpl. now destruct (xhr this1).
Qed.

(** C10.  A progress notification with status 301 or 307 leaves
    [canReconnect] false, with or without a [Location]; no later
    notification, of any kind and in any number, makes it true again; and
    from then on the completion of a transport leaves the object as it is
    and has no effect at all: no event, no timer, no request. *)
Theorem redirect_never_reconnects (x : XMLHttpRequest)
        (this : EventSourcePolyfill) (ns : list notification)
        (done : XMLHttpRequest) :
  inProgress x -> xhr_status x = 301%Z \/ xhr_status x = 307%Z ->
  readyState this <> CLOSED ->
  let redirected := fst (onreadystatechange ToNumber x this) in
  let later := fst (run ToNumber ns redirected) in
  canReconnect redirected = false /\
  canReconnect later = false /\
  (xhr_readyState done = 4%Z ->
     onreadystatechange ToNumber done later = (later, [])).
Proof.
  intros Hp Hs Hr redirected later.
  assert (L : canReconnect redirected = false).
  { subst redirected. unfold onreadystatechange.
    replace (ReadyState_eqb (readyState this) CLOSED) with false
      by (destruct (readyState this); [reflexivity|reflexivity|congruence]).
    destruct Hp as [-> | ->], Hs as [-> | ->]; simpl;
      rewrite seq_run; cbn [fst]; branches; reflexivity. }
  assert (L' : canReconnect later = false) by (now apply run_latched).
  repeat split; try assumption.
  intros Hd. now apply completion_when_latched.
Qed.

Lemma no_content_notifications (ns : list notification) :
  Forall (ofStatus 204) ns ->
  forall this, canReconnect this = false ->
               run ToNumber ns this = (this, []).
Proof.
  induction 1 as [|n ns Hn _ IH]; intros this Hc; [reflexivity|].
  simpl. rewrite seq_run.
  assert (E : react ToNumber n this = (this, [])).
  { destruct n as [x| |]; simpl in Hn; try contradiction. simpl.
    unfold onreadystatechange, reestablishConnection. rewrite Hn, Hc.
    rewrite orb_true_r. simpl.
    destruct (_ || _); [reflexivity|].
    destruct (xhr_readyState x =? 4)%Z; [reflexivity|].
    unfold assign. destruct this; simpl in *; subst; reflexivity. }
  rewrite E. cbn [fst snd]. now rewrite IH.
Qed.

(** What a 204 response does in general.  Its first progress notification
    clears [canReconnect] and does nothing else, and every later
    notification of that response, its completion too, does nothing: no
    event is dispatched, no timer is set, no request is sent, and no field
    but [canReconnect] is assigned. *)
Lemma no_content_is_silent (x : XMLHttpRequest) (this : EventSourcePolyfill)
        (ns : list notification) :
  inProgress x -> xhr_status x = 204%Z -> readyState this <> CLOSED ->
  Forall (ofStatus 204) ns ->
  run ToNumber (ReadyStateChange x :: ns) this =
    (set_canReconnect false this, []) /\
  readyState (fst (run ToNumber (ReadyStateChange x :: ns) this)) =
    readyState this /\
  canReconnect (fst (run ToNumber (ReadyStateChange x :: ns) this)) = false.
Proof.
  intros Hp Hs Hr Hns.
  assert (E : run ToNumber (ReadyStateChange x :: ns) this =
              (set_canReconnect false this, [])).
  { simpl. rewrite seq_run.
    assert (E1 : onreadystatechange ToNumber x this =
                 (set_canReconnect false this, [])).
    { unfold onreadystatechange. rewrite Hs.
      replace (ReadyState_eqb (readyState this) CLOSED) with false
        by (destruct (readyState this); [reflexivity|reflexivity|congruence]).
      destruct Hp as [-> | ->]; reflexivity. }
    rewrite E1. cbn [fst snd].
    now rewrite (no_content_notifications ns Hns). }
  rewrite E. repeat split.
Qed.

(** C8, as the code has it.  A progress notification with status 301 or
    307 dispatches no event, clears [canReconnect] and aborts the handle it
    came from.  With a [Location] header whose value is not the empty
    string it then sends, from the same object, a request for that URL on a
    new handle, and the object is [CONNECTING]; with no [Location] header,
    or an empty one, it sends nothing and the object is [CLOSED]. *)
Theorem redirect_is_silent (x : XMLHttpRequest) (this : EventSourcePolyfill) :
  inProgress x -> xhr_status x = 301%Z \/ xhr_status x = 307%Z ->
  readyState this <> CLOSED ->
  dispatched (snd (onreadystatechange ToNumber x this)) = [] /\
  canReconnect (fst (onreadystatechange ToNumber x this)) = false /\
  (forall u, xhr_Location x = Some u -> u <> [] ->
     exists handle request,
       snd (onreadystatechange ToNumber x this) =
         [xhrAbort (xhr_handle x); xhrSend handle request] /\
       req_url request = u /\
       xhr (fst (onreadystatechange ToNumber x this)) = Some handle /\
       xhr this <> Some handle /\
       readyState (fst (onreadystatechange ToNumber x this)) = CONNECTING /\
       url (fst (onreadystatechange ToNumber x this)) = url this) /\
  (xhr_Location x = None \/ xhr_Location x = Some [] ->
     snd (onreadystatechange ToNumber x this) = [xhrAbort (xhr_handle x)] /\
     readyState (fst (onreadystatechange ToNumber x this)) = CLOSED).
Proof.
  intros Hp Hs Hr.
  assert (E : onreadystatechange ToNumber x this =
              (failConnection x true ;;
               match xhr_Location x with
               | Some u => if isEmpty u then skip else connect (Some u)
               | None => skip
               end)%method this).
  { unfold onreadystatechange.
    replace (ReadyState_eqb (readyState this) CLOSED) with false
      by (destruct (readyState this); [reflexivity|reflexivity|congruence]).
    destruct Hp as [-> | ->], Hs as [-> | ->]; reflexivity. }
  rewrite E, seq_run. cbn [fst snd]. repeat split.
  - destruct (xhr_Location x) as [[|c u]|]; reflexivity.
  - destruct (xhr_Location x) as [[|c u]|]; reflexivity.
  - intros u -> Hu. destruct u as [|c u]; [congruence|].
    exists (match xhr this with Some h => S h | None => O end). eexists.
    repeat split.
    + destruct (xhr this) as [h|]; simpl; [|discriminate].
      intros H. injection H as H. induction h; [discriminate|]. apply IHh.
      now injection H.
  - destruct H as [-> | ->]; reflexivity.
  - destruct H as [-> | ->]; reflexivity.
Qed.

(** C1 fails on the code.  The text of one event, received whole,
    dispatches the event; received in the three pieces [da], [ta: a] with
    its line feed, and the final line feed, it dispatches nothing: the
    unfinished last line of each piece is parsed as if it were complete. *)
Theorem chunked_feed_loses_event :
  List.concat [lit "da"; lit "ta: a" ++ [LF]; [LF]] = lit "data: a" ++ [LF; LF] /\
  dispatched (snd (feed ToNumber (loading (lit "/s")) []
                        [lit "data: a" ++ [LF; LF]] (opened (lit "/s")))) =
    [MessageEvent (lit "message") (lit "a") (lit "/s") []] /\
  dispatched (snd (feed ToNumber (loading (lit "/s")) []
                        [lit "da"; lit "ta: a" ++ [LF]; [LF]]
                        (opened (lit "/s")))) = [].
Proof. repeat split. Qed.

(** The same from the constructor on, through the handler: the connection
    opens on the first notification in both runs, and only the run that
    receives the text whole dispatches the message. *)
Lemma chunked_notifications_lose_event :
  dispatched (snd (run ToNumber
                     [ReadyStateChange
                        (receiving (lit "/s") (lit "data: a" ++ [LF; LF]))]
                     (fst (new (lit "/s") false)))) =
    [PlainEvent (lit "open");
     MessageEvent (lit "message") (lit "a") (lit "/s") []] /\
  dispatched (snd (run ToNumber
                     [ReadyStateChange (receiving (lit "/s") (lit "da"));
                      ReadyStateChange
                        (receiving (lit "/s") (lit "data: a" ++ [LF]));
                      ReadyStateChange
                        (receiving (lit "/s") (lit "data: a" ++ [LF; LF]))]
                     (fst (new (lit "/s") false)))) =
    [PlainEvent (lit "open")].
Proof. split; reflexivity. Qed.

End Machine.

(** * Worked examples *)

(** C2 fails on the code.  A new object receives a 204 response: the
    headers, then the completion.  No event is dispatched, no timer is set
    and [canReconnect] is false, as the claim says, but the object is still
    [CONNECTING]: [case 204] does not close it, and [reestablishConnection]
    returns before it touches [readyState]. *)
Theorem no_content_stays_connecting :
  readyState
    (fst (run StringToNumber
              [ReadyStateChange (response 0 2 204 None);
               ReadyStateChange (response 0 4 204 None)]
              (fst (new (lit "/s") false)))) = CONNECTING /\
  readyState
    (fst (run StringToNumber
              [ReadyStateChange (response 0 2 204 None);
               ReadyStateChange (response 0 4 204 None)]
              (fst (new (lit "/s") false)))) <> CLOSED /\
  canReconnect
    (fst (run StringToNumber
              [ReadyStateChange (response 0 2 204 None);
               ReadyStateChange (response 0 4 204 None)]
              (fst (new (lit "/s") false)))) = false /\
  snd (run StringToNumber
           [ReadyStateChange (response 0 2 204 None);
            ReadyStateChange (response 0 4 204 None)]
           (fst (new (lit "/s") false))) = [].
Proof. vm_compute. repeat split. discriminate. Qed.

(** C8 as stated fails: a 301 response whose [Location] header is present
    with the empty string as its value sends no request. *)
Lemma empty_location_not_followed :
  xhr_Location (response 0 2 301 (Some [])) = Some [] /\
  sent (snd (onreadystatechange StringToNumber (response 0 2 301 (Some []))
                                (fst (new (lit "/s") false)))) = [].
Proof. split; reflexivity. Qed.

Lemma parseLine_cases_witness :
  lit "data:  x" <> [] /\
  parseLine (lit "data:  x") = Some {| field := lit "data"; value := lit " x" |}.
Proof.
  split; [discriminate|].
  destruct (parseLine_cases (lit "data:  x")) as (_ & _ & H & _);
    [discriminate|].
  apply (H (lit "data") (lit " x")); [discriminate| |reflexivity].
  cbv. intros F. repeat (destruct F as [F|F]; [discriminate|]). exact F.
Defined.

Lemma blank_line_promotes_id_witness :
  lastEventId (fst (interpretLine StringToNumber (lit "/s") []
                      (set_idBuffer (lit "7") (opened (lit "/s"))))) = lit "7" /\
  snd (interpretLine StringToNumber (lit "/s") []
         (set_idBuffer (lit "7") (opened (lit "/s")))) = [].
Proof.
  destruct (blank_line_promotes_id StringToNumber (lit "/s")
              (set_idBuffer (lit "7") (opened (lit "/s")))) as [H1 H2].
  split; [exact H1|]. apply H2. reflexivity.
Defined.

Lemma data_lines_then_blank_witness :
  snd (interpretLines StringToNumber (lit "/s")
         ([lit "data: a"; lit "data:b"; lit "data"] ++ [[]])
         (opened (lit "/s"))) =
    [dispatchEvent
       (MessageEvent (lit "message") (lit "a" ++ [LF] ++ lit "b" ++ [LF])
                     (lit "/s") [])].
Proof.
  apply (data_lines_then_blank StringToNumber (lit "/s")
           [lit "data: a"; lit "data:b"; lit "data"] [lit "a"; lit "b"; []]
           (opened (lit "/s"))).
  - constructor; [exact (dataLine_space (lit "a"))|].
    constructor; [apply (dataLine_colon (lit "b")); discriminate|].
    constructor; [exact dataLine_bare|constructor].
  - discriminate.
  - reflexivity.
Defined.


Lemma id_with_NUL_is_ignored_witness :
  In NUL (lit "x" ++ [NUL] ++ lit "y") /\
  exists request,
    sent (snd (run StringToNumber
                   [ReadyStateChange (response 0 4 200 None); TimerExpired]
                   (fst (processField StringToNumber
                           {| field := Fields.ID;
                              value := lit "x" ++ [NUL] ++ lit "y" |}
                           (set_lastEventId (lit "41") (opened (lit "/s")))))))
      = [request] /\
    getHeader (lit "Last-Event-ID") (req_headers request) = Some (lit "41").
Proof.
  assert (I : In NUL (lit "x" ++ [NUL] ++ lit "y")) by (right; left; reflexivity).
  split; [exact I|].
  destruct (id_with_NUL_is_ignored StringToNumber
              (lit "x" ++ [NUL] ++ lit "y")
              (set_lastEventId (lit "41") (opened (lit "/s")))
              (response 0 4 200 None) I) as (_ & _ & _ & H).
  apply H; [reflexivity|discriminate|reflexivity].
Defined.

Lemma close_is_final_witness :
  sent (snd (run StringToNumber
               [ReadyStateChange (response 0 4 200 None); CloseCalled;
                TimerExpired]
               (opened (lit "/s")))) = [].
Proof.
  destruct (close_is_final StringToNumber (opened (lit "/s")) [])
    as (_ & _ & _ & _ & _ & _ & H).
  apply (H (response 0 4 200 None)); [reflexivity|discriminate|reflexivity].
Defined.

Lemma redirect_never_reconnects_witness :
  onreadystatechange StringToNumber (response 1 4 200 None)
    (fst (run StringToNumber [ReadyStateChange (loading (lit "/new"))]
            (fst (onreadystatechange StringToNumber
                    (response 0 2 301 (Some (lit "/new")))
                    (fst (new (lit "/s") false)))))) =
  (fst (run StringToNumber [ReadyStateChange (loading (lit "/new"))]
          (fst (onreadystatechange StringToNumber
                  (response 0 2 301 (Some (lit "/new")))
                  (fst (new (lit "/s") false))))), []).
Proof.
  apply (redirect_never_reconnects StringToNumber
           (response 0 2 301 (Some (lit "/new"))) (fst (new (lit "/s") false))
           [ReadyStateChange (loading (lit "/new"))] (response 1 4 200 None)).
  - left. reflexivity.
  - left. reflexivity.
  - discriminate.
  - reflexivity.
Defined.

Lemma no_content_is_silent_witness :
  run StringToNumber
      [ReadyStateChange (response 0 2 204 None);
       ReadyStateChange (response 0 4 204 None)]
      (fst (new (lit "/s") false)) =
    (set_canReconnect false (fst (new (lit "/s") false)), []).
Proof.
  apply (no_content_is_silent StringToNumber (response 0 2 204 None)
           (fst (new (lit "/s") false))
           [ReadyStateChange (response 0 4 204 None)]).
  - left. reflexivity.
  - reflexivity.
  - discriminate.
  - constructor; [reflexivity|constructor].
Defined.

Lemma redirect_is_silent_witness :
  exists handle request,
    snd (onreadystatechange StringToNumber
           (response 0 2 301 (Some (lit "/new"))) (fst (new (lit "/s") false))) =
      [xhrAbort 0; xhrSend handle request] /\
    req_url request = lit "/new".
Proof.
  destruct (redirect_is_silent StringToNumber
              (response 0 2 301 (Some (lit "/new")))
              (fst (new (lit "/s") false)))
    as (_ & _ & H & _); [left; reflexivity|left; reflexivity|discriminate|].
  destruct (H (lit "/new")) as (handle & request & E & U & _);
    [reflexivity|discriminate|].
  exists handle, request. split; [exact E|exact U].
Defined.

(** * Further properties *)

(** ** Text normaliser and line splitting *)

Lemma decodeUTF8_wide_bounded (n : nat) :
  forall s, (List.length s <= n)%nat ->
  forall c, In c s -> (256 <= c)%N -> decodeUTF8 s = None.
Proof.
  induction n as [|n IH]; intros s Hn c Hin Hc.
  { destruct s; [destruct Hin|simpl in Hn; lia]. }
  assert (K : forall b, continuation b = true -> c <> b).
  { intros b Hb ->. unfold continuation in Hb.
    apply andb_prop in Hb. destruct Hb as [_ Hb]. apply N.leb_le in Hb. lia. }
  assert (T : forall t, (List.length t <= n)%nat -> In c t ->
                        decodeUTF8 t = None) by (intros; now apply (IH t) with c).
  destruct s as [|b0 s1]; [destruct Hin|]. simpl in Hn.
  cbn [decodeUTF8].
  destruct (N.ltb_spec b0 128).
  { rewrite T; [reflexivity|lia|]. destruct Hin as [E|Hin]; [lia|exact Hin]. }
  destruct (N.ltb_spec b0 192); [reflexivity|].
  destruct Hin as [E|Hin].
  { subst b0. repeat (match goal with
                      | |- context [(c <? ?k)%N] => destruct (N.ltb_spec c k); [lia|]
                      end). reflexivity. }
  destruct (N.ltb_spec b0 224).
  { destruct s1 as [|b1 s2]; [reflexivity|]. cbv zeta. simpl in Hn.
    destruct (continuation b1) eqn:C1; [|reflexivity].
    destruct (_ <=? _)%N; [|reflexivity]. cbn [andb].
    rewrite T; [reflexivity|lia|].
    destruct Hin as [E|Hin]; [now elim (K b1 C1)|exact Hin]. }
  destruct (N.ltb_spec b0 240).
  { destruct s1 as [|b1 [|b2 s3]]; try reflexivity. cbv zeta. simpl in Hn.
    destruct (continuation b1) eqn:C1; [|reflexivity].
    destruct (continuation b2) eqn:C2; [|reflexivity].
    destruct (_ && _ && _ && _); [|reflexivity].
    rewrite T; [reflexivity|lia|].
    destruct Hin as [E|[E|Hin]];
      [now elim (K b1 C1)|now elim (K b2 C2)|exact Hin]. }
  destruct (N.ltb_spec b0 248); [|reflexivity].
  destruct s1 as [|b1 [|b2 [|b3 s4]]]; try reflexivity. cbv zeta. simpl in Hn.
  destruct (continuation b1) eqn:C1; [|reflexivity].
  destruct (continuation b2) eqn:C2; [|reflexivity].
  destruct (continuation b3) eqn:C3; [|reflexivity].
  destruct (_ && _ && _ && _ && _); [|reflexivity].
  rewrite T; [reflexivity|lia|].
  destruct Hin as [E|[E|[E|Hin]]];
    [now elim (K b1 C1)|now elim (K b2 C2)|now elim (K b3 C3)|exact Hin].
Qed.

Lemma decodeUTF8_wide (s : jsstring) (c : char) :
  In c s -> (256 <= c)%N -> decodeUTF8 s = None.
Proof. intros. now apply (decodeUTF8_wide_bounded (List.length s)) with c. Qed.

Lemma normalizeToLF_no_CR_bounded (n : nat) :
  forall s, (List.length s <= n)%nat -> ~ In CR (normalizeToLF s).
Proof.
  induction n as [|n IH]; intros s Hn.
  { destruct s; [intros []|simpl in Hn; lia]. }
  destruct s as [|c s]; [intros []|]. simpl in Hn. cbn [normalizeToLF].
  destruct (N.eqb_spec c CR) as [_|Hc].
  - intros [E|F]; [discriminate|]. revert F. apply IH.
    destruct s as [|c' s]; [simpl; lia|].
    destruct (N.eqb c' LF); simpl in *; lia.
  - intros [E|F]; [congruence|]. revert F. apply IH. lia.
Qed.

Lemma split_nonempty (s : jsstring) : split s <> [].
Proof.
  induction s as [|c s IH]; [discriminate|].
  cbn [split]. destruct (N.eqb c LF); [discriminate|].
  destruct (split s); discriminate.
Qed.

Lemma split_app (a b : jsstring) :
  split (a ++ LF :: b) = split a ++ split b.
Proof.
  induction a as [|c a IH]; [reflexivity|].
  change ((c :: a) ++ LF :: b) with (c :: (a ++ LF :: b)).
  cbn [split]. rewrite IH.
  destruct (N.eqb c LF); [reflexivity|].
  pose proof (split_nonempty a). destruct (split a); [congruence|reflexivity].
Qed.

Lemma normalizeToLF_line (l rest : jsstring) :
  ~ In CR l -> normalizeToLF (l ++ rest) = l ++ normalizeToLF rest.
Proof.
  induction l as [|c l IH]; intros H; [reflexivity|].
  change ((c :: l) ++ rest) with (c :: (l ++ rest)). cbn [normalizeToLF].
  destruct (N.eqb_spec c CR) as [E|_]; [elim H; now left|].
  rewrite IH; [reflexivity|]. intros F. apply H. now right.
Qed.

(** X1.  Text made of ASCII characters only is decoded to itself. *)
Theorem decodeUTF8_keeps_ascii (s : jsstring) :
  Forall (fun c => (c < 128)%N) s -> decodeUTF8 s = Some s.
Proof. apply decodeUTF8_ascii. Qed.

(** X2.  The result of [normalizeToLF] holds no carriage return, so
    normalising it again changes nothing. *)
Theorem normalizeToLF_removes_CR (s : jsstring) :
  ~ In CR (normalizeToLF s) /\
  normalizeToLF (normalizeToLF s) = normalizeToLF s.
Proof.
  assert (H : ~ In CR (normalizeToLF s))
    by (now apply (normalizeToLF_no_CR_bounded (List.length s))).
  split; [exact H|]. now apply normalizeToLF_without_CR.
Qed.

(** X3.  Lines that hold neither CR nor LF, written with CR LF or with CR
    alone between them, are normalised to the same lines with LF between
    them. *)
Theorem normalizeToLF_line_endings (lines : list jsstring) :
  Forall (fun l => ~ In CR l /\ ~ In LF l) lines ->
  normalizeToLF (join [CR; LF] lines) = join [LF] lines /\
  normalizeToLF (join [CR] lines) = join [LF] lines.
Proof.
  induction 1 as [|l lines [Hc Hl] Hs [IH1 IH2]]; [split; reflexivity|].
  destruct lines as [|l' lines].
  - cbn [join]. rewrite <- (app_nil_r l) at 1 3.
    rewrite !normalizeToLF_line by assumption. now rewrite app_nil_r.
  - change (join [CR; LF] (l :: l' :: lines))
      with (l ++ CR :: LF :: join [CR; LF] (l' :: lines)).
    change (join [CR] (l :: l' :: lines))
      with (l ++ CR :: join [CR] (l' :: lines)).
    change (join [LF] (l :: l' :: lines))
      with (l ++ LF :: join [LF] (l' :: lines)).
    rewrite !normalizeToLF_line by assumption. split.
    + cbn [normalizeToLF]. change (N.eqb CR CR) with true.
      change (N.eqb LF LF) with true. cbv iota. now rewrite IH1.
    + cbn [normalizeToLF]. change (N.eqb CR CR) with true. cbv iota.
      assert (E : match join [CR] (l' :: lines) with
                  | [] => join [CR] (l' :: lines)
                  | c' :: s'' => if N.eqb c' LF then s''
                                 else join [CR] (l' :: lines)
                  end = join [CR] (l' :: lines)).
      { inversion Hs as [|? ? [_ Hl'] _]; subst.
        destruct lines as [|l'' lines].
        - cbn [join]. destruct l' as [|c' l']; [reflexivity|].
          destruct (N.eqb_spec c' LF) as [->|_]; [elim Hl'; now left|reflexivity].
        - change (join [CR] (l' :: l'' :: lines))
            with (l' ++ CR :: join [CR] (l'' :: lines)).
          destruct l' as [|c' l']; [reflexivity|]. cbn [app].
          destruct (N.eqb_spec c' LF) as [->|_]; [elim Hl'; now left|reflexivity]. }
      rewrite E. now rewrite IH2.
Qed.

(** X4.  [split] and [join] are inverse: the lines of a text, joined by
    line feeds, give the text back; there is always at least one line, and
    no line holds a line feed. *)
Theorem join_split (s : jsstring) :
  join [LF] (split s) = s /\ split s <> [] /\
  Forall (fun l => ~ In LF l) (split s).
Proof.
  split; [|split; [apply split_nonempty|]].
  - induction s as [|c s IH]; [reflexivity|].
    cbn [split]. pose proof (split_nonempty s) as N.
    destruct (N.eqb_spec c LF) as [->|_].
    + destruct (split s) as [|l ls]; [congruence|].
      change (join [LF] ([] :: l :: ls)) with (LF :: join [LF] (l :: ls)).
      now rewrite IH.
    + destruct (split s) as [|l ls]; [congruence|].
      destruct ls as [|l' ls].
      * cbn [join] in *. now rewrite IH.
      * change (join [LF] ((c :: l) :: l' :: ls))
          with (c :: join [LF] (l :: l' :: ls)).
        now rewrite IH.
  - induction s as [|c s IH]; [repeat constructor; intros []|].
    cbn [split]. destruct (N.eqb_spec c LF) as [->|Hc].
    + constructor; [intros []|exact IH].
    + destruct (split s) as [|l ls]; [repeat constructor; intros [E|[]]; congruence|].
      inversion IH; subst. constructor; [|assumption].
      intros [E|F]; [congruence|contradiction].
Qed.

(** ** Stream decoder, continued *)

Section DecoderFrame.

Variable ToNumber : jsstring -> number.

Ltac cases :=
  repeat match goal with
         | |- context [if ?b then _ else _] => destruct b
         | |- context [match ?o with Some _ => _ | None => _ end] => destruct o
         end.

(** A line changes the buffers, the committed id and the delay only, and
    all it can do to the outside is dispatch a message event. *)
Lemma interpretLine_frame (origin line : jsstring) (this : EventSourcePolyfill) :
  url (fst (interpretLine ToNumber origin line this)) = url this /\
  withCredentials (fst (interpretLine ToNumber origin line this)) =
    withCredentials this /\
  readyState (fst (interpretLine ToNumber origin line this)) = readyState this /\
  canReconnect (fst (interpretLine ToNumber origin line this)) =
    canReconnect this /\
  xhr (fst (interpretLine ToNumber origin line this)) = xhr this /\
  responseTextCursor (fst (interpretLine ToNumber origin line this)) =
    responseTextCursor this /\
  Forall (messageFrom origin) (snd (interpretLine ToNumber origin line this)).
Proof.
  unfold interpretLine, dispatchMessageEvent, processField, assign, skip.
  destruct this as [u w l t cur eb ib db c r h]. cbn.
  cases; cbn; repeat split; try constructor; try constructor;
    eexists; eexists; eexists; reflexivity.
Qed.

Lemma interpretLines_frame (origin : jsstring) (lines : list jsstring) :
  forall this,
    url (fst (interpretLines ToNumber origin lines this)) = url this /\
    withCredentials (fst (interpretLines ToNumber origin lines this)) =
      withCredentials this /\
    readyState (fst (interpretLines ToNumber origin lines this)) =
      readyState this /\
    canReconnect (fst (interpretLines ToNumber origin lines this)) =
      canReconnect this /\
    xhr (fst (interpretLines ToNumber origin lines this)) = xhr this /\
    responseTextCursor (fst (interpretLines ToNumber origin lines this)) =
      responseTextCursor this /\
    Forall (messageFrom origin) (snd (interpretLines ToNumber origin lines this)).
Proof.
  induction lines as [|line lines IH]; intros this.
  { cbn. repeat split. constructor. }
  cbn [interpretLines]. rewrite seq_run. cbn [fst snd].
  destruct (interpretLine_frame origin line this) as (A1 & A2 & A3 & A4 & A5 & A6 & A7).
  destruct (IH (fst (interpretLine ToNumber origin line this)))
    as (B1 & B2 & B3 & B4 & B5 & B6 & B7).
  repeat split; try congruence. apply Forall_app. now split.
Qed.

(** The cursor is not read by the loop: moving it before or after the
    lines are interpreted gives the same result. *)
Lemma interpretLine_cursor (origin line : jsstring) (n : nat)
      (this : EventSourcePolyfill) :
  interpretLine ToNumber origin line (set_responseTextCursor n this) =
    (set_responseTextCursor n (fst (interpretLine ToNumber origin line this)),
     snd (interpretLine ToNumber origin line this)).
Proof.
  unfold interpretLine. destruct (isEmpty line).
  - unfold dispatchMessageEvent.
    destruct this as [u w l t cur eb ib db c r h]. cbn.
    destruct (isEmpty db); [reflexivity|].
    destruct (lastChar db) as [ch|]; [destruct (N.eqb ch LF)|]; reflexivity.
  - destruct (parseLine line) as [p|]; [|reflexivity].
    unfold processField, assign, skip. cases; reflexivity.
Qed.

Lemma interpretLines_cursor (origin : jsstring) (lines : list jsstring) (n : nat) :
  forall this,
    interpretLines ToNumber origin lines (set_responseTextCursor n this) =
      (set_responseTextCursor n (fst (interpretLines ToNumber origin lines this)),
       snd (interpretLines ToNumber origin lines this)).
Proof.
  induction lines as [|line lines IH]; intros this; [reflexivity|].
  cbn [interpretLines]. rewrite !seq_run, interpretLine_cursor. cbn [fst snd].
  now rewrite IH.
Qed.

(** A second blank line right after a blank line finds nothing to do. *)
Lemma dispatchMessageEvent_twice (origin : jsstring) (this : EventSourcePolyfill) :
  dispatchMessageEvent origin (fst (dispatchMessageEvent origin this)) =
    (fst (dispatchMessageEvent origin this), []).
Proof.
  unfold dispatchMessageEvent.
  destruct this as [u w l t cur eb ib db c r h].
  destruct db as [|d db]; [reflexivity|].
  cbn -[last removelast]. destruct (N.eqb _ LF); reflexivity.
Qed.

(** X5.  A non-empty line whose field name is none of [event], [data],
    [id] and [retry], in exactly that spelling, changes nothing and
    dispatches nothing. *)
Theorem unknown_field_is_ignored (origin line : jsstring) (p : MessagePayload)
        (this : EventSourcePolyfill) :
  line <> [] -> parseLine line = Some p -> ~ knownField (field p) ->
  interpretLine ToNumber origin line this = (this, []).
Proof.
  intros Hl Hp Hk. unfold interpretLine.
  destruct line; [congruence|]. cbn [isEmpty]. rewrite Hp.
  unfold processField, knownField in *.
  destruct (eqb (field p) Fields.EVENT) eqn:E1;
    [apply eqb_eq in E1; tauto|].
  destruct (eqb (field p) Fields.DATA) eqn:E2;
    [apply eqb_eq in E2; tauto|].
  destruct (eqb (field p) Fields.ID) eqn:E3;
    [apply eqb_eq in E3; tauto|].
  destruct (eqb (field p) Fields.RETRY) eqn:E4;
    [apply eqb_eq in E4; tauto|].
  reflexivity.
Qed.

Lemma blank_lines_collapse_any (origin : jsstring) (k : nat)
      (this : EventSourcePolyfill) :
  interpretLines ToNumber origin (repeat [] (S k)) this =
    interpretLines ToNumber origin [[]] this.
Proof.
  revert this. induction k as [|k IH]; intros this; [reflexivity|].
  change (repeat [] (S (S k))) with ([[] : jsstring] ++ repeat [] (S k)).
  rewrite interpretLines_app, seq_run.
  rewrite IH.
  change (interpretLines ToNumber origin [[]])
    with (dispatchMessageEvent origin ;; skip)%method.
  rewrite !seq_run. cbn [skip fst snd].
  rewrite dispatchMessageEvent_twice. cbn [fst snd].
  now rewrite !app_nil_r.
Qed.

(** X6.  Blank lines in a row act as one: the lines after the first change
    nothing and dispatch nothing, whatever the buffers held. *)
Theorem blank_lines_collapse (origin : jsstring) (k : nat)
        (this : EventSourcePolyfill) :
  interpretLines ToNumber origin (repeat [] (S k)) this =
    interpretLines ToNumber origin [[]] this.
Proof.
  apply blank_lines_collapse_any.
Qed.

(** X7.  On an open connection, newly arrived text that holds a code unit
    above 255 is dropped whole: [decodeUTF8] throws, the cursor has moved
    past the text, nothing else changes and nothing is dispatched. *)
Theorem wide_character_drops_chunk (x : XMLHttpRequest) (text : jsstring)
        (c : char) (this : EventSourcePolyfill) :
  readyState this = OPEN -> xhr_responseText x = Some text ->
  In c (skipn (responseTextCursor this) text) -> (256 <= c)%N ->
  interpretStream ToNumber x this =
    (set_responseTextCursor (List.length text) this, []).
Proof.
  intros Hr Ht Hin Hc. unfold interpretStream. rewrite Hr, Ht.
  change (negb (ReadyState_eqb OPEN OPEN)) with false. cbv iota.
  unfold substringFrom. now rewrite (decodeUTF8_wide _ c Hin Hc).
Qed.

Lemma parseLine_fieldLine (name line v : jsstring) :
  name <> [] -> ~ In COLON name -> fieldLine name line v ->
  line <> [] /\ parseLine line = Some {| field := name; value := v |}.
Proof.
  intros Hn Hc [|w Hw|w].
  - split; [exact Hn|]. unfold parseLine.
    now rewrite (indexOf_absent _ _ Hc).
  - split; [now destruct name|]. rewrite parseLine_field by assumption.
    rewrite indexOf_head. destruct w as [|c w]; [reflexivity|].
    destruct (N.eqb_spec c SPACE) as [->|_]; [now elim Hw|reflexivity].
  - split; [now destruct name|]. now rewrite parseLine_field by assumption.
Qed.

Lemma interpretLine_fieldLine (origin name line v : jsstring)
      (this : EventSourcePolyfill) :
  name <> [] -> ~ In COLON name -> fieldLine name line v ->
  interpretLine ToNumber origin line this =
    processField ToNumber {| field := name; value := v |} this.
Proof.
  intros Hn Hc Hf.
  destruct (parseLine_fieldLine name line v Hn Hc Hf) as [Hl Hp].
  unfold interpretLine. destruct line; [congruence|]. cbn [isEmpty].
  now rewrite Hp.
Qed.

Lemma literal_without_colon (name : jsstring) :
  forallb (fun c => negb (N.eqb c COLON)) name = true -> ~ In COLON name.
Proof.
  intros H F. rewrite forallb_forall in H. specialize (H _ F).
  now rewrite N.eqb_refl in H.
Qed.

(** X8.  An event written in full: an [id] line whose value holds no NUL,
    an [event] line, [data] lines and the blank line dispatch one message
    event with that type (["message"] when it is empty), the joined data
    and that id.  The id is committed and stays pending, the type does not:
    a later event made of [data] lines only has the type ["message"] and
    the same id. *)
Theorem event_block (origin idLine id typeLine type : jsstring)
        (lines vs : list jsstring) (this : EventSourcePolyfill) :
  fieldLine Fields.ID idLine id -> ~ In NUL id ->
  fieldLine Fields.EVENT typeLine type ->
  Forall2 dataLine lines vs -> vs <> [] -> dataBuffer this = [] ->
  snd (interpretLines ToNumber origin (idLine :: typeLine :: lines ++ [[]]) this) =
    [dispatchEvent
       (MessageEvent (if isEmpty type then lit "message" else type)
                     (join [LF] vs) origin id)] /\
  lastEventId
    (fst (interpretLines ToNumber origin (idLine :: typeLine :: lines ++ [[]]) this))
    = id /\
  forall lines' vs',
    Forall2 dataLine lines' vs' -> vs' <> [] ->
    snd (interpretLines ToNumber origin (lines' ++ [[]])
           (fst (interpretLines ToNumber origin
                   (idLine :: typeLine :: lines ++ [[]]) this))) =
      [dispatchEvent
         (MessageEvent (lit "message") (join [LF] vs') origin id)].
Proof.
  intros Hi Hn Ht Hl Hvs Hd.
  assert (E : interpretLines ToNumber origin
                (idLine :: typeLine :: lines ++ [[]]) this =
              interpretLines ToNumber origin (lines ++ [[]])
                (set_eventTypeBuffer type (set_idBuffer id this))).
  { cbn [interpretLines]. rewrite !seq_run.
    rewrite (interpretLine_fieldLine origin Fields.ID idLine id this)
      by (first [assumption | discriminate
              | apply literal_without_colon; reflexivity]).
    assert (P1 : processField ToNumber {| field := Fields.ID; value := id |} this
                 = (set_idBuffer id this, [])).
    { unfold processField. cbn [field value].
      change (eqb Fields.ID Fields.EVENT) with false.
      change (eqb Fields.ID Fields.DATA) with false.
      change (eqb Fields.ID Fields.ID) with true. cbv iota.
      now rewrite (indexOf_absent _ _ Hn). }
    rewrite P1. cbn [fst snd].
    rewrite (interpretLine_fieldLine origin Fields.EVENT typeLine type
               (set_idBuffer id this))
      by (first [assumption | discriminate
              | apply literal_without_colon; reflexivity]).
    change (processField ToNumber {| field := Fields.EVENT; value := type |}
              (set_idBuffer id this))
      with (set_eventTypeBuffer type (set_idBuffer id this), @nil effect).
    cbn [fst snd app].
    now destruct (interpretLines ToNumber origin (lines ++ [[]]) _). }
  rewrite E.
  rewrite (interpretLines_data_flush ToNumber origin lines vs
             (set_eventTypeBuffer type (set_idBuffer id this)) Hl Hvs Hd).
  cbn [fst snd]. split; [reflexivity|]. split; [reflexivity|].
  intros lines' vs' Hl' Hvs'.
  rewrite (interpretLines_data_flush ToNumber origin lines' vs');
    [reflexivity|assumption|assumption|reflexivity].
Qed.

Lemma ReadyState_eqb_eq (a b : ReadyState) : ReadyState_eqb a b = true <-> a = b.
Proof. destruct a, b; cbn; split; congruence. Qed.

(** What the text normaliser leaves alone is interpreted line by line
    from the cursor on. *)
Lemma interpretStream_normal (x : XMLHttpRequest) (received c : jsstring)
      (this : EventSourcePolyfill) :
  readyState this = OPEN -> responseTextCursor this = List.length received ->
  normal c ->
  interpretStream ToNumber (withText x (received ++ c)) this =
    (set_responseTextCursor (List.length (received ++ c))
       (fst (interpretLines ToNumber (xhr_responseURL x) (split c) this)),
     snd (interpretLines ToNumber (xhr_responseURL x) (split c) this)).
Proof.
  intros Hr Hc Hn. unfold interpretStream. rewrite Hr, Hc.
  change (negb (ReadyState_eqb OPEN OPEN)) with false. cbv iota.
  cbn [withText xhr_responseText xhr_responseURL].
  unfold substringFrom. rewrite skipn_app, Nat.sub_diag, skipn_all. cbn [skipn app].
  rewrite decodeUTF8_ascii by (revert Hn; apply Forall_impl; tauto).
  rewrite normalizeToLF_without_CR
    by (intros F; unfold normal in Hn; rewrite Forall_forall in Hn;
        now destruct (Hn _ F)).
  apply interpretLines_cursor.
Qed.

Lemma set_responseTextCursor_twice (n m : nat) (this : EventSourcePolyfill) :
  set_responseTextCursor m (set_responseTextCursor n this) =
    set_responseTextCursor m this.
Proof. reflexivity. Qed.

(** Two pieces, the first of which ends on a blank line, are interpreted
    like the one piece they make. *)
Lemma interpretStream_aligned (x : XMLHttpRequest) (received c d : jsstring)
      (this : EventSourcePolyfill) :
  readyState this = OPEN -> responseTextCursor this = List.length received ->
  aligned c -> normal d ->
  (interpretStream ToNumber (withText x (received ++ c)) ;;
   interpretStream ToNumber (withText x ((received ++ c) ++ d)))%method this =
    interpretStream ToNumber (withText x (received ++ c ++ d)) this.
Proof.
  intros Hr Hc [[body ->] Hn] Hd.
  assert (Hcd : normal ((body ++ [LF; LF]) ++ d)) by (apply Forall_app; now split).
  rewrite seq_run.
  rewrite (interpretStream_normal x received (body ++ [LF; LF]) this Hr Hc Hn).
  cbn [fst snd].
  set (url := xhr_responseURL x).
  set (R1 := interpretLines ToNumber url (split (body ++ [LF; LF])) this).
  destruct (interpretLines_frame url (split (body ++ [LF; LF])) this)
    as (_ & _ & F3 & _). fold R1 in F3.
  rewrite (interpretStream_normal x (received ++ body ++ [LF; LF]) d).
  2:{ cbn. now rewrite F3. }
  2:{ reflexivity. }
  2:{ exact Hd. }
  fold url. rewrite interpretLines_cursor. cbn [fst snd].
  rewrite set_responseTextCursor_twice.
  rewrite (interpretStream_normal x received ((body ++ [LF; LF]) ++ d) this Hr Hc Hcd).
  fold url.
  assert (L : List.length (received ++ (body ++ [LF; LF]) ++ d) =
              List.length ((received ++ body ++ [LF; LF]) ++ d))
    by (now rewrite !length_app, Nat.add_assoc).
  rewrite L. clear L.
  assert (S1 : split (body ++ [LF; LF]) = split body ++ repeat [] 2).
  { change [LF; LF] with (LF :: [LF]). now rewrite split_app. }
  assert (S2 : split ((body ++ [LF; LF]) ++ d) = (split body ++ [[]]) ++ split d).
  { replace ((body ++ [LF; LF]) ++ d) with (body ++ LF :: LF :: d)
      by (now rewrite <- app_assoc).
    rewrite split_app. cbn [split]. change (N.eqb LF LF) with true. cbv iota.
    now rewrite <- app_assoc. }
  assert (E1 : R1 = interpretLines ToNumber url (split body ++ [[]]) this).
  { unfold R1. rewrite S1, !interpretLines_app, !seq_run.
    now rewrite (blank_lines_collapse_any url 1). }
  rewrite S2, E1, (interpretLines_app ToNumber url (split body ++ [[]]) (split d)),
    seq_run.
  reflexivity.
Qed.

Lemma feed_cons (x : XMLHttpRequest) (received c : jsstring)
      (rest : list jsstring) (this : EventSourcePolyfill) :
  feed ToNumber x received (c :: rest) this =
    (interpretStream ToNumber (withText x (received ++ c)) ;;
     feed ToNumber x (received ++ c) rest)%method this.
Proof. reflexivity. Qed.

(** X9.  When every piece of the response text but the last ends on a blank
    line, and the text is ASCII without CR, delivery in pieces leaves the
    object in the same state and dispatches the same events as delivery of
    the whole text at once. *)
Theorem aligned_chunks_same_events (x : XMLHttpRequest) (chunks : list jsstring)
        (final : jsstring) :
  Forall aligned chunks -> normal final ->
  forall (received : jsstring) (this : EventSourcePolyfill),
    readyState this = OPEN -> responseTextCursor this = List.length received ->
    feed ToNumber x received (chunks ++ [final]) this =
      feed ToNumber x received [List.concat (chunks ++ [final])] this.
Proof.
  intros Hcs Hf. induction Hcs as [|c cs Hc Hcs IH]; intros received this Hr Hn.
  { cbn [app List.concat]. now rewrite app_nil_r. }
  assert (Hd : normal (List.concat (cs ++ [final]))).
  { unfold normal. apply Forall_concat. apply Forall_app. split.
    - revert Hcs. apply Forall_impl. now intros a [_ Ha].
    - now constructor. }
  change ((c :: cs) ++ [final]) with (c :: (cs ++ [final])).
  change (List.concat (c :: (cs ++ [final])))
    with (c ++ List.concat (cs ++ [final])).
  rewrite !feed_cons, !seq_run. cbn [feed skip fst snd]. rewrite !app_nil_r.
  destruct Hc as [Hb Hcn].
  rewrite IH.
  2:{ rewrite (interpretStream_normal x received c this Hr Hn Hcn). cbn [fst].
      destruct (interpretLines_frame (xhr_responseURL x) (split c) this)
        as (_ & _ & F3 & _). cbn. now rewrite F3. }
  2:{ rewrite (interpretStream_normal x received c this Hr Hn Hcn). reflexivity. }
  rewrite feed_cons, seq_run. cbn [feed skip fst snd]. rewrite app_nil_r.
  pose proof (interpretStream_aligned x received c
                (List.concat (cs ++ [final])) this Hr Hn (conj Hb Hcn) Hd) as E.
  rewrite seq_run in E. rewrite E. apply surjective_pairing.
Qed.

End DecoderFrame.

(** ** Connection state machine, continued *)

Section Classification.

Variable ToNumber : jsstring -> number.

Lemma messages_only (origin : jsstring) (es : list effect) :
  Forall (messageFrom origin) es ->
  sent es = [] /\ timers es = [] /\
  forall e, In e es -> messageFrom origin e.
Proof.
  intros H. repeat split.
  - induction H as [|e es (t & d & i & ->) _ IH]; [reflexivity|exact IH].
  - induction H as [|e es (t & d & i & ->) _ IH]; [reflexivity|exact IH].
  - now apply Forall_forall.
Qed.

(** [interpretStream] leaves the connection part of the object alone but
    for the cursor, dispatches message events of the response only, and
    does so only on an open connection. *)
Lemma interpretStream_frame (x : XMLHttpRequest) (this : EventSourcePolyfill) :
  url (fst (interpretStream ToNumber x this)) = url this /\
  withCredentials (fst (interpretStream ToNumber x this)) = withCredentials this /\
  readyState (fst (interpretStream ToNumber x this)) = readyState this /\
  Forall (messageFrom (xhr_responseURL x)) (snd (interpretStream ToNumber x this)) /\
  (snd (interpretStream ToNumber x this) <> [] -> readyState this = OPEN).
Proof.
  unfold interpretStream.
  destruct (ReadyState_eqb (readyState this) OPEN) eqn:E; cbn [negb].
  2:{ cbn [fst snd].
      split; [reflexivity|split; [reflexivity|split; [reflexivity|
      split; [constructor|intros H; now elim H]]]]. }
  apply ReadyState_eqb_eq in E.
  destruct (xhr_responseText x) as [text|].
  2:{ cbn [fst snd].
      split; [reflexivity|split; [reflexivity|split; [reflexivity|
      split; [constructor|intros H; now elim H]]]]. }
  destruct (decodeUTF8 _) as [decoded|].
  2:{ cbn [fst snd].
      split; [reflexivity|split; [reflexivity|split; [reflexivity|
      split; [constructor|intros H; now elim H]]]]. }
  destruct (interpretLines_frame ToNumber (xhr_responseURL x)
              (split (normalizeToLF decoded))
              (set_responseTextCursor (List.length text) this))
    as (F1 & F2 & F3 & _ & _ & _ & F7).
  cbn [fst snd] in *. rewrite F1, F2, F3.
  split; [reflexivity|split; [reflexivity|split; [reflexivity|
  split; [assumption|intros _; exact E]]]].
Qed.

Lemma handleConnection_cases (x : XMLHttpRequest) (this : EventSourcePolyfill) :
  handleConnection x this = (this, []) /\ readyState this <> CONNECTING \/
  handleConnection x this =
    (set_responseTextCursor 0 (set_readyState OPEN this),
     [dispatchEvent (PlainEvent (lit "open"))]) \/
  handleConnection x this =
    (set_canReconnect false (set_readyState CLOSED this),
     [dispatchEvent (PlainEvent (lit "error")); xhrAbort (xhr_handle x)]).
Proof.
  unfold handleConnection.
  destruct (ReadyState_eqb (readyState this) CONNECTING) eqn:E.
  - right. destruct (xhr_ContentType x) as [ct|]; [|now right].
    destruct (_ && _); [now left|now right].
  - left. split; [reflexivity|]. intros H. apply ReadyState_eqb_eq in H. congruence.
Qed.

Lemma connect_request (target : option jsstring) (this : EventSourcePolyfill) :
  exists handle request,
    connect target this =
      (set_xhr (Some handle) (set_readyState CONNECTING this),
       [xhrSend handle request]) /\
    wellFormed (withCredentials this) request /\
    req_url request = match target with Some u => u | None => url this end.
Proof.
  unfold connect. eexists. eexists. split; [reflexivity|].
  unfold wellFormed. cbn. destruct (lastEventId this); repeat split.
Qed.

(** What one notification sends, and that it keeps the two read-only
    fields. *)
Lemma react_requests (n : notification) (this : EventSourcePolyfill) :
  Forall (wellFormed (withCredentials this)) (sent (snd (react ToNumber n this))) /\
  withCredentials (fst (react ToNumber n this)) = withCredentials this /\
  url (fst (react ToNumber n this)) = url this.
Proof.
  destruct n as [x| |]; cbn [react].
  - unfold onreadystatechange.
    destruct (_ || _); [repeat split; constructor|].
    destruct (xhr_readyState x =? 4)%Z.
    { unfold reestablishConnection. destruct (_ || _); repeat split; constructor. }
    destruct (xhr_status x =? 200)%Z.
    { rewrite seq_run. cbn [fst snd].
      destruct (interpretStream_frame x (fst (handleConnection x this)))
        as (F1 & F2 & _ & F4 & _).
      destruct (messages_only _ _ F4) as (S & _ & _).
      rewrite sent_app, S, app_nil_r, F1, F2.
      destruct (handleConnection_cases x this) as [[-> _]|[->| ->]];
        repeat split; constructor. }
    destruct (xhr_status x =? 204)%Z; [repeat split; constructor|].
    destruct (_ || _); [|repeat split; constructor].
    rewrite seq_run. cbn [fst snd].
    destruct (xhr_Location x) as [u|]; [|repeat split; constructor].
    destruct (isEmpty u); [repeat split; constructor|].
    destruct (connect_request (Some u)
                (fst (failConnection x true this))) as (h & r & -> & W & _).
    repeat split. cbn. constructor; [exact W|constructor].
  - unfold timerCallback. destruct (negb _); [repeat split; constructor|].
    destruct (connect_request None this) as (h & r & -> & W & _).
    repeat split. cbn. constructor; [exact W|constructor].
  - unfold close. cbn. destruct (xhr this); repeat split; constructor.
Qed.

(** X10.  Whatever notifications arrive, in any order, every request the
    object sends is a GET that accepts [text/event-stream], forbids caching
    and carries the credentials flag the object was created with; the URL
    and the flag of the object never change. *)
Theorem requests_are_well_formed (ns : list notification)
        (this : EventSourcePolyfill) :
  Forall (wellFormed (withCredentials this)) (sent (snd (run ToNumber ns this))) /\
  withCredentials (fst (run ToNumber ns this)) = withCredentials this /\
  url (fst (run ToNumber ns this)) = url this.
Proof.
  revert this. induction ns as [|n ns IH]; intros this.
  { repeat split. constructor. }
  cbn [run]. rewrite seq_run. cbn [fst snd].
  destruct (react_requests n this) as (R1 & R2 & R3).
  destruct (IH (fst (react ToNumber n this))) as (I1 & I2 & I3).
  rewrite sent_app. repeat split; try congruence.
  apply Forall_app. split; [exact R1|]. now rewrite <- R2.
Qed.

Lemma failed_is_closed (this : EventSourcePolyfill) :
  readyState (set_canReconnect false (set_readyState CLOSED this)) = CLOSED.
Proof. reflexivity. Qed.

(** X12.  While the object is connecting, a progress notification of a 200
    response whose content type is missing or is not [text/event-stream]
    ends the connection for good: one [error] event, the handle aborted,
    the object [CLOSED] and not allowed to reconnect; nothing is
    interpreted, and no later notification dispatches, sends or schedules
    anything. *)
Theorem wrong_content_type_is_fatal (x : XMLHttpRequest)
        (this : EventSourcePolyfill) (ns : list notification) :
  inProgress x -> xhr_status x = 200%Z -> readyState this = CONNECTING ->
  (forall contentType, xhr_ContentType x = Some contentType ->
                       toLowerCase contentType <> lit "text/event-stream") ->
  onreadystatechange ToNumber x this =
    (set_canReconnect false (set_readyState CLOSED this),
     [dispatchEvent (PlainEvent (lit "error")); xhrAbort (xhr_handle x)]) /\
  fst (run ToNumber (ReadyStateChange x :: ns) this) =
    set_canReconnect false (set_readyState CLOSED this) /\
  dispatched (snd (run ToNumber (ReadyStateChange x :: ns) this)) =
    [PlainEvent (lit "error")] /\
  sent (snd (run ToNumber (ReadyStateChange x :: ns) this)) = [] /\
  timers (snd (run ToNumber (ReadyStateChange x :: ns) this)) = [].
Proof.
  intros Hp Hs Hr Hc.
  assert (E : onreadystatechange ToNumber x this =
    (set_canReconnect false (set_readyState CLOSED this),
     [dispatchEvent (PlainEvent (lit "error")); xhrAbort (xhr_handle x)])).
  { unfold onreadystatechange. rewrite Hr, Hs.
    assert (H : handleConnection x this =
      (set_canReconnect false (set_readyState CLOSED this),
       [dispatchEvent (PlainEvent (lit "error")); xhrAbort (xhr_handle x)])).
    { unfold handleConnection. rewrite Hr. cbn [ReadyState_eqb ReadyState_code Z.eqb].
      destruct (xhr_ContentType x) as [ct|]; [|reflexivity].
      destruct (eqb (toLowerCase ct) (lit "text/event-stream")) eqn:B.
      - apply eqb_eq in B. now elim (Hc ct).
      - now rewrite andb_false_r. }
    destruct Hp as [-> | ->]; cbn [Z.leb Z.eqb orb ReadyState_eqb];
      rewrite seq_run, H; reflexivity. }
  split; [exact E|].
  cbn [run react]. rewrite seq_run, E. cbn [fst snd].
  destruct (run_closed ToNumber ns _ (failed_is_closed this)) as (R1 & _ & R2 & R3 & R4).
  rewrite R1. change (?a :: ?b :: ?c) with ([a; b] ++ c).
  rewrite dispatched_app, sent_app, timers_app, R2, R3, R4.
  repeat split.
Qed.

(** X13.  A progress notification with a status other than 200, 204, 301
    and 307 ends the connection for good in the same way: one [error]
    event, the handle aborted, the object [CLOSED] and not allowed to
    reconnect, and nothing dispatched, sent or scheduled afterwards. *)
Theorem unexpected_status_is_fatal (x : XMLHttpRequest)
        (this : EventSourcePolyfill) (ns : list notification) :
  inProgress x -> readyState this <> CLOSED ->
  xhr_status x <> 200%Z -> xhr_status x <> 204%Z ->
  xhr_status x <> 301%Z -> xhr_status x <> 307%Z ->
  onreadystatechange ToNumber x this =
    (set_canReconnect false (set_readyState CLOSED this),
     [dispatchEvent (PlainEvent (lit "error")); xhrAbort (xhr_handle x)]) /\
  fst (run ToNumber (ReadyStateChange x :: ns) this) =
    set_canReconnect false (set_readyState CLOSED this) /\
  dispatched (snd (run ToNumber (ReadyStateChange x :: ns) this)) =
    [PlainEvent (lit "error")] /\
  sent (snd (run ToNumber (ReadyStateChange x :: ns) this)) = [] /\
  timers (snd (run ToNumber (ReadyStateChange x :: ns) this)) = [].
Proof.
  intros Hp Hr H200 H204 H301 H307.
  assert (E : onreadystatechange ToNumber x this =
    (set_canReconnect false (set_readyState CLOSED this),
     [dispatchEvent (PlainEvent (lit "error")); xhrAbort (xhr_handle x)])).
  { unfold onreadystatechange.
    replace (ReadyState_eqb (readyState this) CLOSED) with false
      by (destruct (readyState this); [reflexivity|reflexivity|congruence]).
    apply Z.eqb_neq in H200, H204, H301, H307.
    rewrite H200, H204, H301, H307.
    destruct Hp as [-> | ->]; reflexivity. }
  split; [exact E|].
  cbn [run react]. rewrite seq_run, E. cbn [fst snd].
  destruct (run_closed ToNumber ns _ (failed_is_closed this)) as (R1 & _ & R2 & R3 & R4).
  rewrite R1. change (?a :: ?b :: ?c) with ([a; b] ++ c).
  rewrite dispatched_app, sent_app, timers_app, R2, R3, R4.
  repeat split.
Qed.

End Classification.

(** * Worked examples, continued *)

Ltac normal_text :=
  repeat (apply Forall_cons; [split; [reflexivity|discriminate]|]);
  apply Forall_nil.

Lemma decodeUTF8_keeps_ascii_witness :
  decodeUTF8 (lit "data: a") = Some (lit "data: a").
Proof.
  apply decodeUTF8_keeps_ascii.
  repeat (apply Forall_cons; [reflexivity|]). apply Forall_nil.
Defined.

Lemma normalizeToLF_line_endings_witness :
  normalizeToLF (lit "a" ++ [CR; LF; CR; LF] ++ lit "b") =
    lit "a" ++ [LF; LF] ++ lit "b" /\
  normalizeToLF (lit "a" ++ [CR; CR] ++ lit "b") = lit "a" ++ [LF; LF] ++ lit "b".
Proof.
  apply (normalizeToLF_line_endings [lit "a"; []; lit "b"]).
  repeat (apply Forall_cons;
          [split; intros F; repeat (destruct F as [F|F]; [discriminate|]);
           exact F|]).
  apply Forall_nil.
Defined.

Lemma unknown_field_is_ignored_witness :
  interpretLine StringToNumber (lit "/s") (lit "Data: x") (opened (lit "/s")) =
    (opened (lit "/s"), []).
Proof.
  apply (unknown_field_is_ignored StringToNumber (lit "/s") (lit "Data: x")
           {| field := lit "Data"; value := lit "x" |} (opened (lit "/s")));
    [discriminate|reflexivity|].
  intros [H|[H|[H|H]]]; discriminate H.
Defined.

Lemma wide_character_drops_chunk_witness :
  interpretStream StringToNumber
    (receiving (lit "/s") (lit "data: " ++ [8364%N; LF; LF]))
    (opened (lit "/s")) =
  (set_responseTextCursor 9 (opened (lit "/s")), []).
Proof.
  apply (wide_character_drops_chunk StringToNumber
           (receiving (lit "/s") (lit "data: " ++ [8364%N; LF; LF]))
           (lit "data: " ++ [8364%N; LF; LF]) 8364%N (opened (lit "/s")));
    [reflexivity|reflexivity| |discriminate].
  do 6 right. left. reflexivity.
Defined.

Lemma event_block_witness :
  snd (interpretLines StringToNumber (lit "/s")
         (lit "id: 7" :: lit "event: tick" :: [lit "data: a"] ++ [[]])
         (opened (lit "/s"))) =
    [dispatchEvent (MessageEvent (lit "tick") (lit "a") (lit "/s") (lit "7"))].
Proof.
  apply (event_block StringToNumber (lit "/s") (lit "id: 7") (lit "7")
           (lit "event: tick") (lit "tick") [lit "data: a"] [lit "a"]
           (opened (lit "/s"))).
  - exact (fieldLine_space Fields.ID (lit "7")).
  - intros F. repeat (destruct F as [F|F]; [discriminate|]). exact F.
  - exact (fieldLine_space Fields.EVENT (lit "tick")).
  - constructor; [exact (dataLine_space (lit "a"))|constructor].
  - discriminate.
  - reflexivity.
Defined.

Lemma aligned_chunks_same_events_witness :
  feed StringToNumber (loading (lit "/s")) []
       ([lit "data: a" ++ [LF; LF]] ++ [lit "data: b" ++ [LF; LF]])
       (opened (lit "/s")) =
  feed StringToNumber (loading (lit "/s")) []
       [List.concat ([lit "data: a" ++ [LF; LF]] ++ [lit "data: b" ++ [LF; LF]])]
       (opened (lit "/s")).
Proof.
  apply (aligned_chunks_same_events StringToNumber (loading (lit "/s"))
           [lit "data: a" ++ [LF; LF]] (lit "data: b" ++ [LF; LF])).
  - apply Forall_cons; [|apply Forall_nil]. split.
    + exists (lit "data: a"). reflexivity.
    + normal_text.
  - normal_text.
  - reflexivity.
  - reflexivity.
Defined.

Lemma wrong_content_type_is_fatal_witness :
  sent (snd (run StringToNumber
               [ReadyStateChange (response 0 2 200 None);
                ReadyStateChange (response 0 4 200 None); TimerExpired]
               (fst (new (lit "/s") false)))) = [].
Proof.
  destruct (wrong_content_type_is_fatal StringToNumber (response 0 2 200 None)
              (fst (new (lit "/s") false))
              [ReadyStateChange (response 0 4 200 None); TimerExpired])
    as (_ & _ & _ & H & _);
    [left; reflexivity|reflexivity|reflexivity|discriminate|exact H].
Defined.

Lemma unexpected_status_is_fatal_witness :
  dispatched (snd (run StringToNumber
                     [ReadyStateChange (response 0 2 404 None);
                      ReadyStateChange (response 0 4 404 None); TimerExpired]
                     (fst (new (lit "/s") false)))) =
    [PlainEvent (lit "error")].
Proof.
  destruct (unexpected_status_is_fatal StringToNumber (response 0 2 404 None)
              (fst (new (lit "/s") false))
              [ReadyStateChange (response 0 4 404 None); TimerExpired])
    as (_ & _ & H & _);
    [left; reflexivity|discriminate|discriminate|discriminate|discriminate
    |discriminate|exact H].
Defined.

(** * The class with listeners that call back *)

Section Listeners.

Variable ToNumber : jsstring -> number.
Variable Memory : Type.
Variable listener : Event -> Memory -> Memory * bool.

Local Abbreviation lift := (WithListeners.lift Memory).
Local Abbreviation andThen := (WithListeners.andThen Memory).
Local Abbreviation dispatch := (WithListeners.dispatch Memory listener).
Local Abbreviation announceConnection' :=
  (WithListeners.announceConnection Memory listener).
Local Abbreviation dispatchMessageEvent' :=
  (WithListeners.dispatchMessageEvent Memory listener).
Local Abbreviation failConnection' := (WithListeners.failConnection Memory listener).
Local Abbreviation handleConnection' :=
  (WithListeners.handleConnection Memory listener).
Local Abbreviation interpretLine' :=
  (WithListeners.interpretLine ToNumber Memory listener).
Local Abbreviation interpretLines' :=
  (WithListeners.interpretLines ToNumber Memory listener).
Local Abbreviation interpretStream' :=
  (WithListeners.interpretStream ToNumber Memory listener).
Local Abbreviation reestablishConnection' :=
  (WithListeners.reestablishConnection Memory listener).
Local Abbreviation onreadystatechange' :=
  (WithListeners.onreadystatechange ToNumber Memory listener).
Local Abbreviation react' := (WithListeners.react ToNumber Memory listener).
Local Abbreviation run' := (WithListeners.run ToNumber Memory listener).

Lemma andThen_run (f g : WithListeners.handler Memory)
      (s : EventSourcePolyfill * Memory) :
  andThen f g s = (fst (g (fst (f s))), snd (f s) ++ snd (g (fst (f s)))).
Proof.
  unfold WithListeners.andThen. destruct (f s) as [s1 e1]. cbn [fst snd].
  now destruct (g s1).
Qed.

Lemma lift_run (m : method) (s : EventSourcePolyfill * Memory) :
  lift m s = ((fst (m (fst s)), snd s), snd (m (fst s))).
Proof. unfold WithListeners.lift. now destruct (m (fst s)). Qed.

Lemma close_run (this : EventSourcePolyfill) :
  fst (close this) = set_readyState CLOSED this /\
  Forall (fun e => exists handle, e = xhrAbort handle) (snd (close this)).
Proof.
  unfold close. cbn. destruct (xhr this); cbn; split; try reflexivity;
    repeat constructor. eauto.
Qed.

Lemma dispatch_run (e : Event) (s : EventSourcePolyfill * Memory) :
  dispatch e s =
    if snd (listener e (snd s))
    then ((set_readyState CLOSED (fst s), fst (listener e (snd s))),
          dispatchEvent e :: snd (close (fst s)))
    else ((fst s, fst (listener e (snd s))), [dispatchEvent e]).
Proof.
  unfold WithListeners.dispatch. destruct (listener e (snd s)) as [memory c].
  cbn [fst snd]. destruct c; [|reflexivity].
  destruct (close_run (fst s)) as [E _]. destruct (close (fst s)) as [t es].
  cbn [fst snd] in *. now rewrite E.
Qed.

Lemma processField_decodes (origin : jsstring) (p : MessagePayload)
      (this : EventSourcePolyfill) :
  readyState (fst (processField ToNumber p this)) = readyState this /\
  responseTextCursor (fst (processField ToNumber p this)) =
    responseTextCursor this /\
  snd (processField ToNumber p this) = [].
Proof.
  unfold processField, assign, skip.
  repeat match goal with
         | |- context [if ?b then _ else _] => destruct b
         end; repeat split.
Qed.

Lemma abort_is_no_message (origin : jsstring) (es : list effect) :
  Forall (fun e => exists handle, e = xhrAbort handle) es ->
  Forall (messageOrAbort origin) es.
Proof. apply Forall_impl. intros e H. now right. Qed.

Lemma dispatchMessageEvent_decodes (origin : jsstring)
      (s : EventSourcePolyfill * Memory) :
  decodes origin (fst s) (fst (fst (dispatchMessageEvent' origin s)))
          (snd (dispatchMessageEvent' origin s)) /\
  (quiet Memory listener ->
   readyState (fst (fst (dispatchMessageEvent' origin s))) = readyState (fst s)).
Proof.
  unfold WithListeners.dispatchMessageEvent, decodes.
  destruct s as [[u w l t cur eb ib db c r h] m]. cbn [fst snd].
  destruct db as [|d db]; cbn -[last removelast].
  { repeat split; auto. }
  rewrite dispatch_run. cbn [fst snd].
  match goal with
  | |- context [listener ?e m] => destruct (snd (listener e m)) eqn:C
  end.
  - split.
    + destruct (N.eqb _ LF); cbn; (split; [now right|split; [reflexivity|]]);
        (constructor; [left; do 3 eexists; reflexivity|]);
        apply abort_is_no_message; apply close_run.
    + intros Q. rewrite Q in C. discriminate.
  - split.
    + destruct (N.eqb _ LF); cbn; (split; [now left|split; [reflexivity|]]);
        (constructor; [left; do 3 eexists; reflexivity|constructor]).
    + intros _. now destruct (N.eqb _ LF).
Qed.

Lemma interpretLine_decodes (origin line : jsstring)
      (s : EventSourcePolyfill * Memory) :
  decodes origin (fst s) (fst (fst (interpretLine' origin line s)))
          (snd (interpretLine' origin line s)) /\
  (quiet Memory listener ->
   readyState (fst (fst (interpretLine' origin line s))) = readyState (fst s)).
Proof.
  unfold WithListeners.interpretLine. destruct (isEmpty line).
  - apply dispatchMessageEvent_decodes.
  - destruct (parseLine line) as [p|]; rewrite lift_run; cbn [fst snd].
    + destruct (processField_decodes origin p (fst s)) as (A & B & C).
      unfold decodes. rewrite A, B, C. repeat split; auto.
    + unfold decodes. repeat split; auto.
Qed.

Lemma interpretLines_decodes (origin : jsstring) (lines : list jsstring) :
  forall s,
    decodes origin (fst s) (fst (fst (interpretLines' origin lines s)))
            (snd (interpretLines' origin lines s)) /\
    (quiet Memory listener ->
     readyState (fst (fst (interpretLines' origin lines s))) = readyState (fst s)).
Proof.
  induction lines as [|line lines IH]; intros s.
  { cbn [WithListeners.interpretLines]. rewrite lift_run. cbn.
    unfold decodes. repeat split; auto. }
  cbn [WithListeners.interpretLines]. rewrite andThen_run. cbn [fst snd].
  destruct (interpretLine_decodes origin line s) as [(A1 & A2 & A3) A4].
  destruct (IH (fst (interpretLine' origin line s))) as [(B1 & B2 & B3) B4].
  unfold decodes. repeat split.
  - destruct B1 as [B1|B1]; [rewrite B1; exact A1|now right].
  - congruence.
  - apply Forall_app. now split.
  - intros Q. rewrite (B4 Q). exact (A4 Q).
Qed.

Lemma interpretStream_decodes (x : XMLHttpRequest)
      (s : EventSourcePolyfill * Memory) :
  (readyState (fst (fst (interpretStream' x s))) = readyState (fst s) \/
   readyState (fst (fst (interpretStream' x s))) = CLOSED) /\
  Forall (messageOrAbort (xhr_responseURL x)) (snd (interpretStream' x s)) /\
  (snd (interpretStream' x s) <> [] -> readyState (fst s) = OPEN) /\
  (forall text, xhr_responseText x = Some text -> readyState (fst s) = OPEN ->
     responseTextCursor (fst (fst (interpretStream' x s))) = List.length text) /\
  (quiet Memory listener ->
   readyState (fst (fst (interpretStream' x s))) = readyState (fst s)).
Proof.
  unfold WithListeners.interpretStream.
  destruct (ReadyState_eqb (readyState (fst s)) OPEN) eqn:E; cbn [negb].
  2:{ cbn [fst snd]. repeat split; auto.
      - intros H. now elim H.
      - intros text _ H. rewrite H in E. discriminate. }
  apply ReadyState_eqb_eq in E.
  destruct (xhr_responseText x) as [text|].
  2:{ cbn [fst snd]. repeat split; auto. discriminate. }
  destruct (decodeUTF8 _) as [decoded|].
  2:{ cbn [fst snd]. repeat split; auto. intros t H _. now injection H as ->. }
  destruct (interpretLines_decodes (xhr_responseURL x)
              (split (normalizeToLF decoded))
              (set_responseTextCursor (List.length text) (fst s), snd s))
    as [(A1 & A2 & A3) A4].
  cbn [fst snd] in *. repeat split; auto.
  intros t H _. injection H as <-. exact A2.
Qed.


Lemma announceConnection_run (s : EventSourcePolyfill * Memory) :
  announceConnection' s =
    if snd (listener (PlainEvent (lit "open")) (snd s))
    then ((set_responseTextCursor 0 (set_readyState CLOSED (fst s)),
           fst (listener (PlainEvent (lit "open")) (snd s))),
          dispatchEvent (PlainEvent (lit "open")) ::
          snd (close (set_readyState OPEN (fst s))))
    else ((set_responseTextCursor 0 (set_readyState OPEN (fst s)),
           fst (listener (PlainEvent (lit "open")) (snd s))),
          [dispatchEvent (PlainEvent (lit "open"))]).
Proof.
  unfold WithListeners.announceConnection.
  rewrite !andThen_run, !lift_run, dispatch_run. cbn [fst snd assign app].
  destruct (snd (listener _ (snd s))); cbn [fst snd app];
    now rewrite ?app_nil_r.
Qed.



(** X11.  While the object is connecting, a progress notification of a
    200 response whose content type is [text/event-stream], in any letter
    case, dispatches [open] before anything else, with the object [OPEN].
    If a listener of [open] calls [close()], the object ends [CLOSED] with
    its cursor at 0 and the text is not interpreted.  Otherwise the text
    received so far is interpreted from its start in the same notification,
    the cursor ends at the length of that text, and the object ends [OPEN],
    or [CLOSED] when a listener of a message called [close()]. *)
Theorem event_stream_opens (x : XMLHttpRequest) (contentType : jsstring)
        (this : EventSourcePolyfill) (memory : Memory) :
  inProgress x -> xhr_status x = 200%Z -> readyState this = CONNECTING ->
  xhr_ContentType x = Some contentType ->
  toLowerCase contentType = lit "text/event-stream" ->
  (exists rest,
     snd (onreadystatechange' x (this, memory)) =
       dispatchEvent (PlainEvent (lit "open")) :: rest) /\
  (snd (listener (PlainEvent (lit "open")) memory) = true ->
     onreadystatechange' x (this, memory) =
       ((set_responseTextCursor 0 (set_readyState CLOSED this),
         fst (listener (PlainEvent (lit "open")) memory)),
        dispatchEvent (PlainEvent (lit "open")) ::
        snd (close (set_readyState OPEN this)))) /\
  (snd (listener (PlainEvent (lit "open")) memory) = false ->
     onreadystatechange' x (this, memory) =
       (fst (interpretStream' x
               (set_responseTextCursor 0 (set_readyState OPEN this),
                fst (listener (PlainEvent (lit "open")) memory))),
        dispatchEvent (PlainEvent (lit "open")) ::
        snd (interpretStream' x
               (set_responseTextCursor 0 (set_readyState OPEN this),
                fst (listener (PlainEvent (lit "open")) memory)))) /\
     (forall text, xhr_responseText x = Some text ->
        responseTextCursor (fst (fst (onreadystatechange' x (this, memory)))) =
          List.length text) /\
     (readyState (fst (fst (onreadystatechange' x (this, memory)))) = OPEN \/
      readyState (fst (fst (onreadystatechange' x (this, memory)))) = CLOSED)) /\
  (quiet Memory listener ->
     readyState (fst (fst (onreadystatechange' x (this, memory)))) = OPEN).
Proof.
  intros Hp Hs Hr Hc Hl.
  assert (E : onreadystatechange' x (this, memory) =
              andThen announceConnection' (interpretStream' x) (this, memory)).
  { unfold WithListeners.onreadystatechange. cbn [fst]. rewrite Hr, Hs.
    assert (H : handleConnection' x (this, memory) =
                announceConnection' (this, memory)).
    { unfold WithListeners.handleConnection. cbn [fst]. rewrite Hr, Hc, Hl.
      destruct contentType; [discriminate|reflexivity]. }
    destruct Hp as [-> | ->]; cbn [Z.leb Z.eqb orb ReadyState_eqb];
      rewrite !andThen_run, H; reflexivity. }
  rewrite E, andThen_run, announceConnection_run. cbn [fst snd].
  destruct (snd (listener (PlainEvent (lit "open")) memory)) eqn:C; cbn [fst snd].
  - split; [eexists; reflexivity|]. split; [|split; [discriminate|]].
    + intros _. unfold WithListeners.interpretStream. cbn. now rewrite app_nil_r.
    + intros Q. rewrite Q in C. discriminate.
  - split; [eexists; reflexivity|]. split; [discriminate|].
    destruct (interpretStream_decodes x
                (set_responseTextCursor 0 (set_readyState OPEN this),
                 fst (listener (PlainEvent (lit "open")) memory)))
      as (A1 & _ & _ & A4 & A5).
    cbn [fst snd] in *. split; [intros _; split; [reflexivity|split]|].
    + intros text Ht. now apply A4.
    + exact A1.
    + intros Q. now apply A5.
Qed.


(** *** Listeners that never call [close()] *)

Lemma agree_lift (m : method) : agree Memory (lift m) m.
Proof. intros s. rewrite lift_run. now split. Qed.

Lemma agree_andThen (f g : WithListeners.handler Memory) (m1 m2 : method) :
  agree Memory f m1 -> agree Memory g m2 ->
  agree Memory (andThen f g) (m1 ;; m2)%method.
Proof.
  intros Hf Hg s. rewrite andThen_run, seq_run. cbn [fst snd].
  destruct (Hf s) as [F1 F2]. destruct (Hg (fst (f s))) as [G1 G2].
  rewrite F2, G1, G2, F1. now split.
Qed.

Section Quiet.

Hypothesis never : quiet Memory listener.

Lemma agree_dispatch (e : Event) :
  agree Memory (dispatch e) (call (dispatchEvent e)).
Proof. intros s. rewrite dispatch_run, never. now split. Qed.

Lemma agree_announceConnection :
  agree Memory announceConnection' announceConnection.
Proof.
  unfold WithListeners.announceConnection, announceConnection.
  repeat apply agree_andThen; try apply agree_lift. apply agree_dispatch.
Qed.

Lemma agree_failConnection (x : XMLHttpRequest) (isSilent : bool) :
  agree Memory (failConnection' x isSilent) (failConnection x isSilent).
Proof.
  unfold WithListeners.failConnection, failConnection.
  repeat apply agree_andThen; try apply agree_lift.
  destruct isSilent; [apply agree_lift|apply agree_dispatch].
Qed.

Lemma agree_handleConnection (x : XMLHttpRequest) :
  agree Memory (handleConnection' x) (handleConnection x).
Proof.
  intros s. unfold WithListeners.handleConnection, handleConnection.
  destruct (ReadyState_eqb (readyState (fst s)) CONNECTING); [|now split].
  destruct (xhr_ContentType x) as [ct|]; [|apply agree_failConnection].
  destruct (_ && _); [apply agree_announceConnection|apply agree_failConnection].
Qed.

Lemma agree_dispatchMessageEvent (origin : jsstring) :
  agree Memory (dispatchMessageEvent' origin) (dispatchMessageEvent origin).
Proof.
  intros s. unfold WithListeners.dispatchMessageEvent, dispatchMessageEvent.
  cbv zeta.
  destruct (isEmpty (dataBuffer (set_lastEventId (idBuffer (fst s)) (fst s))));
    [now split|].
  rewrite dispatch_run, never. now split.
Qed.

Lemma agree_interpretLine (origin line : jsstring) :
  agree Memory (interpretLine' origin line) (interpretLine ToNumber origin line).
Proof.
  unfold WithListeners.interpretLine, interpretLine.
  destruct (isEmpty line); [apply agree_dispatchMessageEvent|].
  destruct (parseLine line); apply agree_lift.
Qed.

Lemma agree_interpretLines (origin : jsstring) (lines : list jsstring) :
  agree Memory (interpretLines' origin lines)
        (interpretLines ToNumber origin lines).
Proof.
  induction lines as [|line lines IH]; [apply agree_lift|].
  cbn [WithListeners.interpretLines interpretLines].
  apply agree_andThen; [apply agree_interpretLine|exact IH].
Qed.

Lemma agree_interpretStream (x : XMLHttpRequest) :
  agree Memory (interpretStream' x) (interpretStream ToNumber x).
Proof.
  intros s. unfold WithListeners.interpretStream, interpretStream.
  destruct (negb _); [now split|].
  destruct (xhr_responseText x) as [text|]; [|now split].
  cbv zeta. destruct (decodeUTF8 _); [|now split].
  apply (agree_interpretLines (xhr_responseURL x) _
           (set_responseTextCursor (List.length text) (fst s), snd s)).
Qed.

Lemma agree_reestablishConnection :
  agree Memory reestablishConnection' reestablishConnection.
Proof.
  intros s. unfold WithListeners.reestablishConnection, reestablishConnection.
  destruct (_ || _); [now split|].
  rewrite !andThen_run, !lift_run, dispatch_run, never. now split.
Qed.

Lemma agree_onreadystatechange (x : XMLHttpRequest) :
  agree Memory (onreadystatechange' x) (onreadystatechange ToNumber x).
Proof.
  intros s. unfold WithListeners.onreadystatechange, onreadystatechange.
  destruct (_ || _); [now split|].
  destruct (xhr_readyState x =? 4)%Z; [apply agree_reestablishConnection|].
  destruct (xhr_status x =? 200)%Z.
  { apply agree_andThen; [apply agree_handleConnection|apply agree_interpretStream]. }
  destruct (xhr_status x =? 204)%Z; [apply agree_lift|].
  destruct (_ || _); [|apply agree_failConnection].
  apply agree_andThen; [apply agree_failConnection|].
  destruct (xhr_Location x) as [u|]; [destruct (isEmpty u)|]; apply agree_lift.
Qed.

(** With listeners that never call [close()] the object, and what it
    does to its collaborators, are those of the methods without listeners:
    what is proved of [run] holds of such runs. *)
Lemma agree_run (ns : list notification) :
  agree Memory (run' ns) (run ToNumber ns).
Proof.
  induction ns as [|n ns IH]; [apply agree_lift|].
  cbn [WithListeners.run run]. apply agree_andThen; [|exact IH].
  destruct n; [apply agree_onreadystatechange|apply agree_lift|apply agree_lift].
Qed.

End Quiet.

End Listeners.

Lemma event_stream_opens_witness :
  readyState
    (fst (fst (WithListeners.onreadystatechange StringToNumber unit
                 (fun _ m => (m, false))
                 {| xhr_handle := 0; xhr_readyState := 3; xhr_status := 200;
                    xhr_ContentType := Some (lit "Text/Event-Stream");
                    xhr_Location := None;
                    xhr_responseText := Some (lit "data: a" ++ [LF; LF]);
                    xhr_responseURL := lit "/s" |}
                 (fst (new (lit "/s") false), tt)))) = OPEN.
Proof.
  destruct (event_stream_opens StringToNumber unit (fun _ m => (m, false))
              {| xhr_handle := 0; xhr_readyState := 3; xhr_status := 200;
                 xhr_ContentType := Some (lit "Text/Event-Stream");
                 xhr_Location := None;
                 xhr_responseText := Some (lit "data: a" ++ [LF; LF]);
                 xhr_responseURL := lit "/s" |}
              (lit "Text/Event-Stream") (fst (new (lit "/s") false)) tt)
    as (_ & _ & _ & H);
    [right; reflexivity|reflexivity|reflexivity|reflexivity|reflexivity|].
  apply H. intros e m. reflexivity.
Defined.

